(** * Contrastive RL: logger factory, wandb sink and agent assembler

    A shallow embedding of [src/default.py], [src/contrastive/wandb_logger.py]
    and [src/contrastive/agents.py].

    Python dictionaries with string keys are finite maps ([gmap string _]),
    Python lists are lists, [float] values (clock readings, learning rates)
    are rationals, exceptions are a sum type, and the module globals together
    with the effects on the outside world (standard output, the wandb SDK, the
    sinks of the acme library) are a [World] threaded through a small
    state-and-exception monad. *)

From Stdlib Require Import ZArith QArith Lqa DecimalString.
From stdpp Require Import base option list strings gmap fin_maps fin_map_dom.

Local Open Scope string_scope.
Local Open Scope list_scope.

(** ** Python values *)

Module Py.

(** The values that occur in metric records and in configuration
    dictionaries ([Mapping[str, Any]]). *)
#[warnings="-register-all"] Inductive Value :=
| VNone
| VBool (b : bool)
| VInt (z : Z)
| VFloat (q : Q)
| VStr (s : string)
| VSeq (l : list Value).

(** [v is None] *)
Definition is_None (v : Value) : bool :=
  match v with VNone => true | _ => false end.

(** [data.get(key, None)] *)
Definition get (data : gmap string Value) (key : string) : Value :=
  default VNone (data !! key).

(** [str(z)] for an [int]. *)
Definition str (z : Z) : string := NilZero.string_of_int (Z.to_int z).

(** Exceptions, all of them subclasses of [Exception]. *)
Inductive Exc :=
| ImportError (msg : string)
| RuntimeError (msg : string)
| AssertionError
| TypeError (msg : string)
| ValueError (msg : string)
| OtherException (msg : string).

(** [str(e)] *)
Definition exc_str (e : Exc) : string :=
  match e with
  | ImportError m | RuntimeError m | TypeError m | ValueError m
  | OtherException m => m
  | AssertionError => ""
  end.

(** An opaque reference to a Python object (a callable, a factory). *)
Inductive Object := Obj (id : nat).

End Py.

Import Py.

Abbreviation dict := (gmap string Value).

(** ** The outside world *)

(** A wandb run handle. *)
Inductive Run := RunHandle (id : nat).

(** Keyword arguments of [wandb.init]. *)
Record InitArgs := {
  ia_project : string;
  ia_entity : option string;
  ia_config : option dict;
  ia_group : option string;
  ia_name : option string;
  ia_tags : option (list string);
  ia_notes : option string;
  ia_mode : string;
  ia_reinit : bool;
}.

(** What the program does to its environment, in program order. *)
Inductive Event :=
| EvPrint (line : string)
| EvWandbInit (args : InitArgs)
| EvWandbLog (data : dict) (step : option Z)
| EvTerminalWrite (label : string) (values : dict)
| EvCSVWrite (label : string) (directory_or_file : string) (values : dict).

(** The module globals [WANDB_AVAILABLE] (of [contrastive/wandb_logger.py])
    and [WANDB_LOGGER_AVAILABLE] (of [default.py]), the SDK's [wandb.run],
    what a call of [wandb.init] would do (raise, or return a run), the
    reading of [time.time()], and the events so far. *)
Record World := {
  WANDB_AVAILABLE : bool;
  WANDB_LOGGER_AVAILABLE : bool;
  wandb_run : option Run;
  wandb_init_outcome : InitArgs -> Exc + option Run;
  clock : Q;
  events : list Event;
}.

Definition emit (e : Event) (w : World) : World :=
  {| WANDB_AVAILABLE := WANDB_AVAILABLE w;
     WANDB_LOGGER_AVAILABLE := WANDB_LOGGER_AVAILABLE w;
     wandb_run := wandb_run w;
     wandb_init_outcome := wandb_init_outcome w;
     clock := clock w;
     events := events w ++ [e] |}.

Definition set_wandb_run (r : option Run) (w : World) : World :=
  {| WANDB_AVAILABLE := WANDB_AVAILABLE w;
     WANDB_LOGGER_AVAILABLE := WANDB_LOGGER_AVAILABLE w;
     wandb_run := r;
     wandb_init_outcome := wandb_init_outcome w;
     clock := clock w;
     events := events w |}.

(** The environment lets time pass. *)
Definition set_clock (t : Q) (w : World) : World :=
  {| WANDB_AVAILABLE := WANDB_AVAILABLE w;
     WANDB_LOGGER_AVAILABLE := WANDB_LOGGER_AVAILABLE w;
     wandb_run := wandb_run w;
     wandb_init_outcome := wandb_init_outcome w;
     clock := t;
     events := events w |}.

(** ** State and exceptions *)

Definition M (A : Type) : Type := World -> (Exc + A) * World.

Definition ret {A} (a : A) : M A := fun w => (inr a, w).

Definition bind {A B} (m : M A) (k : A -> M B) : M B :=
  fun w =>
    match m w with
    | (inl e, w') => (inl e, w')
    | (inr a, w') => k a w'
    end.

Definition raise {A} (e : Exc) : M A := fun w => (inl e, w).

(** [try: body  except Exception as e: handler(e)] *)
Definition try_except {A} (body : M A) (handler : Exc -> M A) : M A :=
  fun w =>
    match body w with
    | (inl e, w') => handler e w'
    | (inr a, w') => (inr a, w')
    end.

Definition read {A} (f : World -> A) : M A := fun w => (inr (f w), w).

Definition effect (e : Event) : M unit := fun w => (inr tt, emit e w).

Notation "x <- c1 ;; c2" := (bind c1 (fun x => c2))
  (at level 100, c1 at next level, right associativity).
Notation "c1 ;;; c2" := (bind c1 (fun _ => c2))
  (at level 100, right associativity).

(** [print(line)] *)
Definition print (line : string) : M unit := effect (EvPrint line).

(** [time.time()] *)
Definition time_time : M Q := read clock.

(** [wandb.init] called with the keyword arguments [args]: the SDK raises,
    or returns the run, which is then also what [wandb.run] holds. *)
Definition wandb_init (args : InitArgs) : M (option Run) :=
  fun w =>
    let w1 := emit (EvWandbInit args) w in
    match wandb_init_outcome w args with
    | inl e => (inl e, w1)
    | inr r => (inr r, set_wandb_run r w1)
    end.

(** ** [contrastive/wandb_logger.py] *)

Record WandbLogger := {
  _label : string;
  _time : Q;
  _run : option Run;
}.

(** The messages of the two exceptions of the constructor. *)
Definition not_installed : string :=
  "wandb is not installed. Install it with: pip install wandb".

Definition run_not_initialized : string :=
  "Wandb run not initialized. Either set init_wandb=True or "
  +:+ "initialize wandb before creating the logger.".

Definition WandbLogger_init
    (label : string) (project : string) (entity : option string)
    (config : option dict) (group name : option string)
    (tags : option (list string)) (notes : option string) (mode : string)
    (init_wandb : bool) : M WandbLogger :=
  available <- read WANDB_AVAILABLE ;;
  if negb available then
    raise (ImportError not_installed)
  else
    now <- time_time ;;
    run <- (if init_wandb then
              current <- read wandb_run ;;
              match current with
              | None =>
                  wandb_init {| ia_project := project; ia_entity := entity;
                                ia_config := config; ia_group := group;
                                ia_name := name; ia_tags := tags;
                                ia_notes := notes; ia_mode := mode;
                                ia_reinit := false |}
              | Some r => ret (Some r)
              end
            else read wandb_run) ;;
    match run with
    | None => raise (RuntimeError run_not_initialized)
    | Some _ => ret {| _label := label; _time := now; _run := run |}
    end.

(** The key [f"{self._label}/{key}"]. *)
Definition prefix_key (label key : string) : string := label +:+ "/" +:+ key.

(** The comprehension over [data.items()] that builds [prefixed_data]. *)
Definition prefixed (label : string) (data : dict) : dict :=
  kmap (prefix_key label) data.

(** The three [data.get] of [write], the later ones tried while
    [step is None]. *)
Definition extract_step (data : dict) : Value :=
  let step := get data "steps" in
  let step := if is_None step then get data "learner_steps" else step in
  let step := if is_None step then get data "actor_steps" else step in
  step.

(** ** The acme logger classes that [default.py] assembles *)

(** [print_fn]: [logging.info], or a callable of the caller. *)
Inductive PrintFn :=
| logging_info
| print_callable (f : Object).

(** [serialize_fn]: [base.to_numpy] (the default), [utils.fetch_devicearray]
    (what the agent passes), or a callable of the caller. *)
Inductive SerializeFn :=
| base_to_numpy
| utils_fetch_devicearray
| serialize_callable (f : Object).

(** The loggers that end a pipeline. *)
Inductive Sink :=
| TerminalLogger (label : string) (print_fn : PrintFn)
| CSVLogger (label : string) (directory_or_file : string) (add_uid : bool)
| WandbSink (logger : WandbLogger).

(** The pipeline objects with their mutable fields: the queue of an
    [AsyncLogger], the time of the last forwarded write of a [TimeFilter]. *)
Inductive Logger :=
| Dispatcher (to : list Sink) (serialize_fn : option SerializeFn)
| NoneFilter (to : Logger)
| AsyncLogger (to : Logger) (pending : list dict)
| TimeFilter (to : Logger) (last : Q) (time_delta : Q).

(** Modelled from the spec: the constructors [async_logger.AsyncLogger] and
    [filters.TimeFilter] of the acme library are not under src/. The
    asynchronous wrapper starts with nothing queued; the throttle ("throttle
    by elapsed time") measures elapsed time from its construction on. *)
Definition AsyncLogger_new (to : Logger) : M Logger := ret (AsyncLogger to []).

Definition TimeFilter_new (to : Logger) (time_delta : Q) : M Logger :=
  now <- time_time ;; ret (TimeFilter to now time_delta).

(** ** [default.py] *)

Module Args.

(** The parameters of [make_wandb_logger]; the first nine are those of
    [make_default_logger]. *)
Record t := {
  label : string;
  save_data : bool;
  save_dir : string;
  add_uid : bool;
  time_delta : Q;
  asynchronous : bool;
  print_fn : option PrintFn;
  serialize_fn : option SerializeFn;
  steps_key : string;
  use_wandb : bool;
  wandb_project : string;
  wandb_entity : option string;
  wandb_group : option string;
  wandb_name : option string;
  wandb_tags : option (list string);
  wandb_notes : option string;
  wandb_mode : string;
  wandb_config : option dict;
  init_wandb : bool;
}.

(** The defaults of the signature, for a given [label]. *)
Definition defaults (label : string) : t :=
  {| label := label; save_data := true; save_dir := "logs"; add_uid := true;
     time_delta := 1; asynchronous := false; print_fn := None;
     serialize_fn := Some base_to_numpy; steps_key := "steps";
     use_wandb := false; wandb_project := "contrastive-rl";
     wandb_entity := None; wandb_group := None; wandb_name := None;
     wandb_tags := None; wandb_notes := None; wandb_mode := "online";
     wandb_config := None; init_wandb := false |}.

End Args.

(** The lines 48-57 and 122-131: the terminal logger, then the CSV logger
    when [save_data]. *)
Definition base_loggers (a : Args.t) : list Sink :=
  let print_fn := match Args.print_fn a with
                  | Some f => f
                  | None => logging_info
                  end in
  let terminal_logger := TerminalLogger (Args.label a) print_fn in
  let loggers := [terminal_logger] in
  if Args.save_data a then
    loggers ++ [CSVLogger (Args.label a) (Args.save_dir a) (Args.add_uid a)]
  else loggers.

(** The lines 59-66 and 158-165: dispatch to all writers and filter Nones
    and by time. *)
Definition wrap (loggers : list Sink) (a : Args.t) : M Logger :=
  let logger := Dispatcher loggers (Args.serialize_fn a) in
  let logger := NoneFilter logger in
  logger <- (if Args.asynchronous a then AsyncLogger_new logger
             else ret logger) ;;
  TimeFilter_new logger (Args.time_delta a).

Definition make_default_logger (a : Args.t) : M Logger :=
  wrap (base_loggers a) a.

(** The lines 133-156. *)
Definition add_wandb_logger (loggers : list Sink) (a : Args.t)
  : M (list Sink) :=
  if Args.use_wandb a then
    available <- read WANDB_LOGGER_AVAILABLE ;;
    if negb available then
      print ("Warning: Wandb logging requested but wandb_logger "
             +:+ "not available for " +:+ Args.label a) ;;;
      ret loggers
    else
      try_except
        (wandb_logger <-
           WandbLogger_init (Args.label a) (Args.wandb_project a)
             (Args.wandb_entity a) (Args.wandb_config a) (Args.wandb_group a)
             (Args.wandb_name a) (Args.wandb_tags a) (Args.wandb_notes a)
             (Args.wandb_mode a) (Args.init_wandb a) ;;
         let loggers := loggers ++ [WandbSink wandb_logger] in
         print ("Wandb logging enabled for " +:+ Args.label a) ;;;
         ret loggers)
        (fun e =>
           print ("Warning: Failed to initialize Wandb logger for "
                  +:+ Args.label a +:+ ": " +:+ exc_str e) ;;;
           ret loggers)
  else ret loggers.

Definition make_wandb_logger (a : Args.t) : M Logger :=
  loggers <- add_wandb_logger (base_loggers a) a ;;
  wrap loggers a.

(** The call of the constructor that [make_wandb_logger] makes. *)
Definition WandbLogger_of (a : Args.t) : M WandbLogger :=
  WandbLogger_init (Args.label a) (Args.wandb_project a) (Args.wandb_entity a)
    (Args.wandb_config a) (Args.wandb_group a) (Args.wandb_name a)
    (Args.wandb_tags a) (Args.wandb_notes a) (Args.wandb_mode a)
    (Args.init_wandb a).

(** The four ways through lines 133-156: what [loggers] and the world have
    become at line 158. *)
Inductive wandb_branch (loggers : list Sink) (a : Args.t) (w : World)
  : list Sink -> World -> Prop :=
| branch_off :
    Args.use_wandb a = false ->
    wandb_branch loggers a w loggers w
| branch_no_module :
    Args.use_wandb a = true -> WANDB_LOGGER_AVAILABLE w = false ->
    wandb_branch loggers a w loggers
      (emit (EvPrint ("Warning: Wandb logging requested but wandb_logger "
                      +:+ "not available for " +:+ Args.label a)) w)
| branch_enabled wandb_logger w1 :
    Args.use_wandb a = true -> WANDB_LOGGER_AVAILABLE w = true ->
    WandbLogger_of a w = (inr wandb_logger, w1) ->
    wandb_branch loggers a w (loggers ++ [WandbSink wandb_logger])
      (emit (EvPrint ("Wandb logging enabled for " +:+ Args.label a)) w1)
| branch_failed e w1 :
    Args.use_wandb a = true -> WANDB_LOGGER_AVAILABLE w = true ->
    WandbLogger_of a w = (inl e, w1) ->
    wandb_branch loggers a w loggers
      (emit (EvPrint ("Warning: Failed to initialize Wandb logger for "
                      +:+ Args.label a +:+ ": " +:+ exc_str e)) w1).

(** The sinks at the end of a pipeline, and whether an asynchronous wrapper
    is part of it. *)
Fixpoint sinks (lg : Logger) : list Sink :=
  match lg with
  | Dispatcher to _ => to
  | NoneFilter to | AsyncLogger to _ | TimeFilter to _ _ => sinks to
  end.

Fixpoint has_async (lg : Logger) : bool :=
  match lg with
  | Dispatcher _ _ => false
  | NoneFilter to | TimeFilter to _ _ => has_async to
  | AsyncLogger _ _ => true
  end.

Definition is_terminal (s : Sink) : bool :=
  match s with TerminalLogger _ _ => true | _ => false end.

Definition is_csv (s : Sink) : bool :=
  match s with CSVLogger _ _ _ => true | _ => false end.

Definition is_wandb (s : Sink) : bool :=
  match s with WandbSink _ => true | _ => false end.

(** ** Writing to a pipeline *)

Section Writing.

(** Python's builtin [int], which raises on what it cannot convert. *)
Variable int : Value -> Exc + Z.

(** What a [serialize_fn] makes of a record. *)
Variable serialize : SerializeFn -> dict -> dict.

Definition WandbLogger_write (self : WandbLogger) (data : dict) : M unit :=
  match _run self with
  | None => ret tt
  | Some _ =>
      let prefixed_data := prefixed (_label self) data in
      let step := extract_step data in
      if negb (is_None step) then
        match int step with
        | inl e => raise e
        | inr n => effect (EvWandbLog prefixed_data (Some n))
        end
      else effect (EvWandbLog prefixed_data None)
  end.

Definition WandbLogger_close (self : WandbLogger) : M unit := ret tt.

(** Modelled from the spec: the [write] methods of acme's [TerminalLogger]
    and [CSVLogger] are not under src/. They are the "terminal printer" and
    the "CSV file" a record is fanned out to: a write to one of them is an
    event of the world. *)
Definition Sink_write (s : Sink) (values : dict) : M unit :=
  match s with
  | TerminalLogger label _ => effect (EvTerminalWrite label values)
  | CSVLogger label directory_or_file _ =>
      effect (EvCSVWrite label directory_or_file values)
  | WandbSink logger => WandbLogger_write logger values
  end.

(** Modelled from the spec: [aggregators.Dispatcher.write] of the acme
    library is not under src/. It "fans a metrics dictionary out" to the
    loggers of its list, in their order, after [serialize_fn], when there is
    one, has been applied to the record. *)
Fixpoint write_all (to : list Sink) (values : dict) : M unit :=
  match to with
  | [] => ret tt
  | s :: rest => Sink_write s values ;;; write_all rest values
  end.

(** The record after [if self._serialize_fn: values = ...]. *)
Definition serialized (serialize_fn : option SerializeFn) (values : dict)
  : dict :=
  match serialize_fn with
  | Some f => serialize f values
  | None => values
  end.

Definition Dispatcher_write (to : list Sink) (serialize_fn : option SerializeFn)
    (values : dict) : M unit :=
  let values := serialized serialize_fn values in
  write_all to values.

(** Modelled from the spec: [filters.NoneFilter.write] of the acme library is
    not under src/. The spec calls it a "None-filtering" decorator and
    [default.py] announces it with "filter Nones": the entries whose value
    is [None] are removed and the rest of the record is passed on. *)
Definition strip_None (values : dict) : dict :=
  filter (fun kv => is_None kv.2 = false) values.

(** Modelled from the spec: the test of [filters.TimeFilter.write] of the
    acme library, which is not under src/. The decorator is to "throttle by
    elapsed time", with [time_delta] the "Time (in seconds) between logging
    events": a write passes when more than [time_delta] seconds have elapsed
    since [last]. *)
Definition elapsed (now last time_delta : Q) : bool :=
  negb (Qle_bool (now - last) time_delta).

(** Modelled from the spec: the [write] methods of the decorators of the
    acme library are not under src/. The dispatcher dispatches; the None
    filter passes the record on without its [None] entries; the
    "asynchronous dispatch wrapper" queues the record and returns; the
    throttle passes the record on and takes the time of the write as the new
    [last] when [elapsed], and drops the record otherwise. *)
Fixpoint Logger_write (lg : Logger) (values : dict) : M Logger :=
  match lg with
  | Dispatcher to serialize_fn =>
      Dispatcher_write to serialize_fn values ;;; ret lg
  | NoneFilter to =>
      to' <- Logger_write to (strip_None values) ;; ret (NoneFilter to')
  | AsyncLogger to pending => ret (AsyncLogger to (pending ++ [values]))
  | TimeFilter to last time_delta =>
      now <- time_time ;;
      if elapsed now last time_delta then
        to' <- Logger_write to values ;; ret (TimeFilter to' now time_delta)
      else ret lg
  end.

(** Modelled from the spec: the worker of the asynchronous wrapper, not
    under src/, passes the queued records on, the oldest first. *)
Fixpoint worker_run (to : Logger) (pending : list dict) : M Logger :=
  match pending with
  | [] => ret to
  | values :: rest => to' <- Logger_write to values ;; worker_run to' rest
  end.

(** The worker of the asynchronous wrapper of a pipeline runs until its
    queue is empty (a pipeline of [default.py] has at most one such
    wrapper). *)
Fixpoint Logger_drain (lg : Logger) : M Logger :=
  match lg with
  | Dispatcher _ _ => ret lg
  | NoneFilter to => to' <- Logger_drain to ;; ret (NoneFilter to')
  | AsyncLogger to pending =>
      to' <- Logger_drain to ;;
      to'' <- worker_run to' pending ;;
      ret (AsyncLogger to'' [])
  | TimeFilter to last time_delta =>
      to' <- Logger_drain to ;; ret (TimeFilter to' last time_delta)
  end.

(** A write, and then the worker at work until the queue is empty. *)
Definition write_and_drain (lg : Logger) (values : dict) : M Logger :=
  lg' <- Logger_write lg values ;; Logger_drain lg'.

(** A caller writes the records of [script], each at its clock reading, and
    stops at the first write that raises. *)
Fixpoint write_script (script : list (Q * dict)) (lg : Logger) : M Logger :=
  match script with
  | [] => ret lg
  | (now, values) :: rest =>
      lg' <- (fun w => Logger_write lg values (set_clock now w)) ;;
      write_script rest lg'
  end.

(** Whether the throttle at the head of [lg] passes a write at [now] on. *)
Definition forwards (lg : Logger) (now : Q) : bool :=
  match lg with
  | TimeFilter _ last time_delta => elapsed now last time_delta
  | _ => true
  end.

(** The clock readings of the writes of [script] that the throttle passed
    on, while the caller runs [write_script]. *)
Fixpoint forward_times (script : list (Q * dict)) (lg : Logger) (w : World)
  : list Q :=
  match script with
  | [] => []
  | (now, values) :: rest =>
      (if forwards lg now then [now] else []) ++
      match Logger_write lg values (set_clock now w) with
      | (inr lg', w') => forward_times rest lg' w'
      | (inl _, _) => []
      end
  end.

End Writing.

(** ** [contrastive/agents.py] *)

Module Config.

(** Modelled from the spec: the configuration class
    [contrastive_config.ContrastiveConfig] is not under src/. These are the
    attributes that [agents.py] reads on it; those it only passes on hold any
    value. *)
Record t := {
  max_episode_steps : Z;
  obs_dim : Z;
  start_index : Z;
  end_index : Z;
  prefetch_size : Z;
  local : bool;
  log_dir : string;
  alg_name : string;
  env_name : string;
  add_uid : bool;
  max_number_of_steps : Value;
  batch_size : Value;
  learning_rate : Value;
  actor_learning_rate : Value;
  discount : Value;
  tau : Value;
  use_td : Value;
  use_cpc : Value;
  repr_dim : Value;
  hidden_layer_sizes : Value;
  use_wandb : bool;
  wandb_project : string;
  wandb_entity : option string;
  wandb_group : option string;
  wandb_name : option string;
  wandb_tags : option (list string);
  wandb_notes : option string;
  wandb_mode : string;
}.

End Config.

(** [contrastive_utils.SuccessObserver()] and
    [contrastive_utils.DistanceObserver(obs_dim=, start_index=, end_index=)]. *)
Inductive Observer :=
| SuccessObserver
| DistanceObserver (obs_dim start_index end_index : Z).

(** [networks.apply_policy_and_sample], and the evaluation policy
    [lambda n: networks.apply_policy_and_sample(n, True)]. *)
Inductive PolicyFactory :=
| apply_policy_and_sample
| eval_policy_factory.

Module Evaluator.

(** The keyword arguments of [distributed_layout.default_evaluator_factory]. *)
Record kwargs := {
  environment_factory : Object;
  network_factory : Object;
  policy_factory : PolicyFactory;
  log_to_bigtable : bool;
  observers : list Observer;
  save_dir : string;
  add_uid : bool;
  use_wandb : bool;
  wandb_project : string;
  wandb_entity : option string;
  wandb_group : option string;
  wandb_mode : string;
}.

End Evaluator.

(** An evaluator factory: the default one of the layout, or the caller's. *)
Inductive EvaluatorFactory :=
| default_evaluator_factory (kw : Evaluator.kwargs)
| evaluator_callable (f : Object).

Module ActorLogger.

(** The arguments of [distributed_layout.get_default_logger_fn]. *)
Record args := {
  log_to_bigtable : bool;
  log_every : Q;
  save_dir : string;
  add_uid : bool;
  use_wandb : bool;
  wandb_project : string;
  wandb_entity : option string;
  wandb_group : option string;
  wandb_mode : string;
}.

End ActorLogger.

Module Checkpointing.

(** [distributed_layout.CheckpointingConfig(save_dir=, add_uid=)]. *)
Record config := {
  save_dir : string;
  add_uid : bool;
}.

End Checkpointing.

Module Builder.

(** [builder.ContrastiveBuilder(config, logger_fn=logger_fn)]. [logger_fn] is
    [functools.partial(make_wandb_logger, ...)]: the arguments it binds, the
    one it leaves out ([print_fn]) at its default. *)
Record t := {
  config : Config.t;
  logger_fn : Args.t;
}.

End Builder.

Module Layout.

(** The keyword arguments of the call of the base class constructor,
    [distributed_layout.DistributedLayout.__init__]. *)
Record kwargs := {
  seed : Z;
  environment_factory : Object;
  environment_factory_fixed_goals : Object;
  network_factory : Object;
  builder : Builder.t;
  policy_network : PolicyFactory;
  evaluator_factories : list EvaluatorFactory;
  num_actors : Z;
  max_number_of_steps : option Z;
  prefetch_size : Z;
  log_to_bigtable : bool;
  actor_logger_fn : ActorLogger.args;
  observers : list Observer;
  checkpointing_config : Checkpointing.config;
  config : Config.t;
}.

End Layout.

Module Init.

(** The parameters of [DistributedContrastive.__init__]. *)
Record t := {
  environment_factory : Object;
  environment_factory_fixed_goals : Object;
  network_factory : Object;
  config : Config.t;
  seed : Z;
  num_actors : Z;
  max_number_of_steps : option Z;
  log_to_bigtable : bool;
  log_every : Q;
  evaluator_factories : option (list EvaluatorFactory);
}.

End Init.

(** The [save_dir] of lines 70-75, 107-112, 146-151 and 161-166:
    [config.log_dir + config.alg_name + "_" + config.env_name + "_"
    + str(seed)]. *)
Definition save_dir_of (config : Config.t) (seed : Z) : string :=
  Config.log_dir config +:+ Config.alg_name config +:+ "_"
  +:+ Config.env_name config +:+ "_" +:+ Py.str seed.

(** The lines 43-61. *)
Definition wandb_config_dict_of (config : Config.t) (seed num_actors : Z)
  : option dict :=
  let wandb_config_dict := None in
  if Config.use_wandb config then
    Some (list_to_map
      [ ("algorithm", VStr (Config.alg_name config));
        ("environment", VStr (Config.env_name config));
        ("seed", VInt seed);
        ("max_steps", Config.max_number_of_steps config);
        ("num_actors", VInt num_actors);
        ("batch_size", Config.batch_size config);
        ("learning_rate", Config.learning_rate config);
        ("actor_learning_rate", Config.actor_learning_rate config);
        ("discount", Config.discount config);
        ("tau", Config.tau config);
        ("use_td", Config.use_td config);
        ("use_cpc", Config.use_cpc config);
        ("repr_dim", Config.repr_dim config);
        ("hidden_layer_sizes", Config.hidden_layer_sizes config) ])
  else wandb_config_dict.

(** The lines 63-88. *)
Definition learner_logger_fn (config : Config.t) (seed : Z)
    (log_to_bigtable : bool) (log_every : Q) (wandb_config_dict : option dict)
  : Args.t :=
  {| Args.label := "learner";
     Args.save_data := log_to_bigtable;
     Args.time_delta := log_every;
     Args.asynchronous := true;
     Args.serialize_fn := Some utils_fetch_devicearray;
     Args.save_dir := save_dir_of config seed;
     Args.add_uid := Config.add_uid config;
     Args.steps_key := "learner_steps";
     Args.use_wandb := Config.use_wandb config;
     Args.wandb_project := Config.wandb_project config;
     Args.wandb_entity := Config.wandb_entity config;
     Args.wandb_group := Config.wandb_group config;
     Args.wandb_name := Config.wandb_name config;
     Args.wandb_tags := Config.wandb_tags config;
     Args.wandb_notes := Config.wandb_notes config;
     Args.wandb_mode := Config.wandb_mode config;
     Args.wandb_config := wandb_config_dict;
     Args.init_wandb := true;
     Args.print_fn := None |}.

(** The observers of lines 92-99 and 123-130. *)
Definition success_and_distance (config : Config.t) : list Observer :=
  [ SuccessObserver;
    DistanceObserver (Config.obs_dim config) (Config.start_index config)
      (Config.end_index config) ].

(** [DistributedContrastive.__init__]: an [AssertionError], or the call of
    the base class constructor. *)
Definition DistributedContrastive_init (a : Init.t) : Exc + Layout.kwargs :=
  let config := Init.config a in
  let seed := Init.seed a in
  let log_to_bigtable := Init.log_to_bigtable a in
  if negb (0 <? Config.max_episode_steps config)%Z then inl AssertionError
  else if negb (0 <? Config.obs_dim config)%Z then inl AssertionError
  else
    let wandb_config_dict :=
      wandb_config_dict_of config seed (Init.num_actors a) in
    let logger_fn :=
      learner_logger_fn config seed log_to_bigtable (Init.log_every a)
        wandb_config_dict in
    let contrastive_builder :=
      {| Builder.config := config; Builder.logger_fn := logger_fn |} in
    let evaluator_factories :=
      match Init.evaluator_factories a with
      | None =>
          let eval_observers := success_and_distance config in
          let evaluator_factories :=
            [ default_evaluator_factory
                {| Evaluator.environment_factory :=
                     Init.environment_factory_fixed_goals a;
                   Evaluator.network_factory := Init.network_factory a;
                   Evaluator.policy_factory := eval_policy_factory;
                   Evaluator.log_to_bigtable := log_to_bigtable;
                   Evaluator.observers := eval_observers;
                   Evaluator.save_dir := save_dir_of config seed;
                   Evaluator.add_uid := Config.add_uid config;
                   Evaluator.use_wandb := Config.use_wandb config;
                   Evaluator.wandb_project := Config.wandb_project config;
                   Evaluator.wandb_entity := Config.wandb_entity config;
                   Evaluator.wandb_group := Config.wandb_group config;
                   Evaluator.wandb_mode := Config.wandb_mode config |} ] in
          if Config.local config then [] else evaluator_factories
      | Some given => given
      end in
    let actor_observers := success_and_distance config in
    inr {| Layout.seed := seed;
           Layout.environment_factory := Init.environment_factory a;
           Layout.environment_factory_fixed_goals :=
             Init.environment_factory_fixed_goals a;
           Layout.network_factory := Init.network_factory a;
           Layout.builder := contrastive_builder;
           Layout.policy_network := apply_policy_and_sample;
           Layout.evaluator_factories := evaluator_factories;
           Layout.num_actors := Init.num_actors a;
           Layout.max_number_of_steps := Init.max_number_of_steps a;
           Layout.prefetch_size := Config.prefetch_size config;
           Layout.log_to_bigtable := log_to_bigtable;
           Layout.actor_logger_fn :=
             {| ActorLogger.log_to_bigtable := log_to_bigtable;
                ActorLogger.log_every := Init.log_every a;
                ActorLogger.save_dir := save_dir_of config seed;
                ActorLogger.add_uid := Config.add_uid config;
                ActorLogger.use_wandb := Config.use_wandb config;
                ActorLogger.wandb_project := Config.wandb_project config;
                ActorLogger.wandb_entity := Config.wandb_entity config;
                ActorLogger.wandb_group := Config.wandb_group config;
                ActorLogger.wandb_mode := Config.wandb_mode config |};
           Layout.observers := actor_observers;
           Layout.checkpointing_config :=
             {| Checkpointing.save_dir := save_dir_of config seed;
                Checkpointing.add_uid := Config.add_uid config |};
           Layout.config := config |}.

(** ** The assembler as the specification describes it *)

(** The keys of the experiment-tracking metadata. *)
Definition wandb_config_keys : list string :=
  [ "algorithm"; "environment"; "seed"; "max_steps"; "num_actors";
    "batch_size"; "learning_rate"; "actor_learning_rate"; "discount"; "tau";
    "use_td"; "use_cpc"; "repr_dim"; "hidden_layer_sizes" ].

(** The arguments that the constructor is to pass on as they are. *)
Definition passes_on (a : Init.t) (layout : Layout.kwargs) : Prop :=
  Layout.seed layout = Init.seed a
  /\ Layout.environment_factory layout = Init.environment_factory a
  /\ Layout.environment_factory_fixed_goals layout =
     Init.environment_factory_fixed_goals a
  /\ Layout.network_factory layout = Init.network_factory a
  /\ Layout.num_actors layout = Init.num_actors a
  /\ Layout.max_number_of_steps layout = Init.max_number_of_steps a
  /\ Layout.log_to_bigtable layout = Init.log_to_bigtable a
  /\ Layout.config layout = Init.config a.

(** The only evaluator factory of the default list, lines 100-120. *)
Definition default_evaluator (a : Init.t) : EvaluatorFactory :=
  let config := Init.config a in
  default_evaluator_factory
    {| Evaluator.environment_factory := Init.environment_factory_fixed_goals a;
       Evaluator.network_factory := Init.network_factory a;
       Evaluator.policy_factory := eval_policy_factory;
       Evaluator.log_to_bigtable := Init.log_to_bigtable a;
       Evaluator.observers := success_and_distance config;
       Evaluator.save_dir := save_dir_of config (Init.seed a);
       Evaluator.add_uid := Config.add_uid config;
       Evaluator.use_wandb := Config.use_wandb config;
       Evaluator.wandb_project := Config.wandb_project config;
       Evaluator.wandb_entity := Config.wandb_entity config;
       Evaluator.wandb_group := Config.wandb_group config;
       Evaluator.wandb_mode := Config.wandb_mode config |}.

(** ** The pipeline as the specification describes it *)

(** A dispatcher over [loggers], wrapped by the None filter, by an
    asynchronous wrapper when [asynchronous], and by the throttle. *)
Definition chain (loggers : list Sink) (serialize_fn : option SerializeFn)
    (asynchronous : bool) (last time_delta : Q) : Logger :=
  let inner := NoneFilter (Dispatcher loggers serialize_fn) in
  TimeFilter (if asynchronous then AsyncLogger inner [] else inner)
    last time_delta.

(** The time from which the throttle at the head of a pipeline measures:
    that of the last write it passed on, or of its construction. *)
Definition last_of (lg : Logger) : Q :=
  match lg with
  | TimeFilter _ last _ => last
  | _ => 0
  end.

(** The value the specification's words give the step of a record: that of
    the first of the three keys that is present with a value. *)
Definition first_present (data : dict) : option Value :=
  List.find (fun v => negb (is_None v))
    (List.map (get data) ["steps"; "learner_steps"; "actor_steps"]).

(** [l] read from left to right, any two of its elements are more than
    [time_delta] apart. *)
Fixpoint separated (time_delta : Q) (l : list Q) : Prop :=
  match l with
  | [] => True
  | t :: rest =>
      List.Forall (fun t' => (time_delta < t' - t)%Q) rest
      /\ separated time_delta rest
  end.

(** [l] read from left to right, each element comes more than [time_delta]
    after the one before it. *)
Fixpoint consecutive_apart (time_delta : Q) (l : list Q) : Prop :=
  match l with
  | t1 :: rest =>
      match rest with
      | t2 :: _ => (time_delta < t2 - t1)%Q
      | [] => True
      end /\ consecutive_apart time_delta rest
  | [] => True
  end.

(** ** Sample inputs *)

(** [int] on numbers: an [int] is itself, a [bool] is 0 or 1, a [float] is
    truncated towards zero; the examples convert nothing else. *)
Definition int_of_number (v : Value) : Exc + Z :=
  match v with
  | VInt z => inr z
  | VBool b => inr (if b then 1 else 0)%Z
  | VFloat q => inr (Z.quot (Qnum q) (Zpos (Qden q)))
  | _ => inl (TypeError "int() argument must be a string or a real number")
  end.

(** Serializers that leave the record as it is. *)
Definition serialize_id (f : SerializeFn) (values : dict) : dict := values.

(** wandb is installed and [wandb.init] returns a run. *)
Definition world_online : World :=
  {| WANDB_AVAILABLE := true;
     WANDB_LOGGER_AVAILABLE := true;
     wandb_run := None;
     wandb_init_outcome := fun _ => inr (Some (RunHandle 1));
     clock := 0;
     events := [] |}.

(** [contrastive.wandb_logger] cannot be imported. *)
Definition world_no_module : World :=
  {| WANDB_AVAILABLE := false;
     WANDB_LOGGER_AVAILABLE := false;
     wandb_run := None;
     wandb_init_outcome := fun _ => inr (Some (RunHandle 1));
     clock := 0;
     events := [] |}.

(** The module is there, the [wandb] package is not. *)
Definition world_no_package : World :=
  {| WANDB_AVAILABLE := false;
     WANDB_LOGGER_AVAILABLE := true;
     wandb_run := None;
     wandb_init_outcome := fun _ => inr (Some (RunHandle 1));
     clock := 0;
     events := [] |}.

(** [wandb.init] raises. *)
Definition world_init_raises : World :=
  {| WANDB_AVAILABLE := true;
     WANDB_LOGGER_AVAILABLE := true;
     wandb_run := None;
     wandb_init_outcome := fun _ => inl (OtherException "network unreachable");
     clock := 0;
     events := [] |}.

Definition config0 : Config.t :=
  {| Config.max_episode_steps := 50;
     Config.obs_dim := 4;
     Config.start_index := 0;
     Config.end_index := 2;
     Config.prefetch_size := 4;
     Config.local := false;
     Config.log_dir := "/tmp/";
     Config.alg_name := "contrastive_nce";
     Config.env_name := "sawyer_window";
     Config.add_uid := true;
     Config.max_number_of_steps := VInt 1000000;
     Config.batch_size := VInt 256;
     Config.learning_rate := VFloat (3 # 10000);
     Config.actor_learning_rate := VFloat (3 # 10000);
     Config.discount := VFloat (99 # 100);
     Config.tau := VFloat (5 # 1000);
     Config.use_td := VBool false;
     Config.use_cpc := VBool false;
     Config.repr_dim := VInt 64;
     Config.hidden_layer_sizes := VSeq [VInt 256; VInt 256];
     Config.use_wandb := true;
     Config.wandb_project := "contrastive-rl";
     Config.wandb_entity := None;
     Config.wandb_group := None;
     Config.wandb_name := None;
     Config.wandb_tags := None;
     Config.wandb_notes := None;
     Config.wandb_mode := "online" |}.

(** [config0] with the environment-specific parts left unset. *)
Definition config_unset : Config.t :=
  {| Config.max_episode_steps := -1;
     Config.obs_dim := -1;
     Config.start_index := Config.start_index config0;
     Config.end_index := Config.end_index config0;
     Config.prefetch_size := Config.prefetch_size config0;
     Config.local := Config.local config0;
     Config.log_dir := Config.log_dir config0;
     Config.alg_name := Config.alg_name config0;
     Config.env_name := Config.env_name config0;
     Config.add_uid := Config.add_uid config0;
     Config.max_number_of_steps := Config.max_number_of_steps config0;
     Config.batch_size := Config.batch_size config0;
     Config.learning_rate := Config.learning_rate config0;
     Config.actor_learning_rate := Config.actor_learning_rate config0;
     Config.discount := Config.discount config0;
     Config.tau := Config.tau config0;
     Config.use_td := Config.use_td config0;
     Config.use_cpc := Config.use_cpc config0;
     Config.repr_dim := Config.repr_dim config0;
     Config.hidden_layer_sizes := Config.hidden_layer_sizes config0;
     Config.use_wandb := Config.use_wandb config0;
     Config.wandb_project := Config.wandb_project config0;
     Config.wandb_entity := Config.wandb_entity config0;
     Config.wandb_group := Config.wandb_group config0;
     Config.wandb_name := Config.wandb_name config0;
     Config.wandb_tags := Config.wandb_tags config0;
     Config.wandb_notes := Config.wandb_notes config0;
     Config.wandb_mode := Config.wandb_mode config0 |}.

(** A construction with the defaults of the signature. *)
Definition init_of (config : Config.t) : Init.t :=
  {| Init.environment_factory := Obj 1;
     Init.environment_factory_fixed_goals := Obj 2;
     Init.network_factory := Obj 3;
     Init.config := config;
     Init.seed := 0;
     Init.num_actors := 4;
     Init.max_number_of_steps := None;
     Init.log_to_bigtable := false;
     Init.log_every := 10;
     Init.evaluator_factories := None |}.

(** The arguments that the learner's [logger_fn] of [init_of config0]
    binds. *)
Definition learner_args : Args.t :=
  learner_logger_fn config0 0 false 10
    (wandb_config_dict_of config0 0 4).

(** An actor's logger with tracking requested: the defaults of the
    signature, but [use_wandb=True]. *)
Definition actor_args : Args.t :=
  {| Args.label := "actor";
     Args.save_data := true;
     Args.save_dir := "logs";
     Args.add_uid := true;
     Args.time_delta := 1;
     Args.asynchronous := false;
     Args.print_fn := None;
     Args.serialize_fn := Some base_to_numpy;
     Args.steps_key := "steps";
     Args.use_wandb := true;
     Args.wandb_project := "contrastive-rl";
     Args.wandb_entity := None;
     Args.wandb_group := None;
     Args.wandb_name := None;
     Args.wandb_tags := None;
     Args.wandb_notes := None;
     Args.wandb_mode := "online";
     Args.wandb_config := None;
     Args.init_wandb := false |}.

(** * Properties *)

Example str_negative : Py.str (-5) = "-5".
Proof. reflexivity. Qed.
Example str_zero : Py.str 0 = "0".
Proof. reflexivity. Qed.
Example str_42 : Py.str 42 = "42".
Proof. reflexivity. Qed.

(** ** Construction of the pipelines *)

Lemma wrap_chain (loggers : list Sink) (a : Args.t) (w : World) :
  wrap loggers a w =
  (inr (chain loggers (Args.serialize_fn a) (Args.asynchronous a) (clock w)
          (Args.time_delta a)), w).
Proof.
  unfold wrap, chain, bind, AsyncLogger_new, TimeFilter_new, time_time, read,
    ret.
  destruct (Args.asynchronous a); reflexivity.
Qed.

Lemma sinks_chain loggers ser asy last delta :
  sinks (chain loggers ser asy last delta) = loggers.
Proof. unfold chain. destruct asy; reflexivity. Qed.

Lemma has_async_chain loggers ser asy last delta :
  has_async (chain loggers ser asy last delta) = asy.
Proof. unfold chain. destruct asy; reflexivity. Qed.

Lemma add_wandb_logger_branch loggers a w :
  exists loggers' w',
    add_wandb_logger loggers a w = (inr loggers', w')
    /\ wandb_branch loggers a w loggers' w'.
Proof.
  unfold add_wandb_logger.
  destruct (Args.use_wandb a) eqn:Huse.
  - unfold bind at 1, read at 1.
    destruct (WANDB_LOGGER_AVAILABLE w) eqn:Hmod; simpl.
    + unfold try_except, bind at 1.
      fold (WandbLogger_of a).
      destruct (WandbLogger_of a w) as [[e | wl] w1] eqn:Hinit.
      * eexists _, _. split; [reflexivity |].
        eapply branch_failed; eauto.
      * eexists _, _. split; [reflexivity |].
        eapply branch_enabled; eauto.
    + eexists _, _. split; [reflexivity |].
      apply branch_no_module; auto.
  - eexists _, _. split; [reflexivity |]. apply branch_off; auto.
Qed.

Lemma make_wandb_logger_chain a w :
  exists loggers w',
    wandb_branch (base_loggers a) a w loggers w'
    /\ make_wandb_logger a w =
       (inr (chain loggers (Args.serialize_fn a) (Args.asynchronous a)
               (clock w') (Args.time_delta a)), w').
Proof.
  destruct (add_wandb_logger_branch (base_loggers a) a w)
    as (loggers & w' & Hadd & Hbranch).
  exists loggers, w'. split; [exact Hbranch |].
  unfold make_wandb_logger, bind. rewrite Hadd. apply wrap_chain.
Qed.

Lemma base_loggers_shape a :
  exists print_fn,
    base_loggers a =
    TerminalLogger (Args.label a) print_fn ::
    (if Args.save_data a
     then [CSVLogger (Args.label a) (Args.save_dir a) (Args.add_uid a)]
     else []).
Proof.
  unfold base_loggers. eexists. destruct (Args.save_data a); reflexivity.
Qed.

Lemma base_loggers_no_wandb a : existsb is_wandb (base_loggers a) = false.
Proof.
  destruct (base_loggers_shape a) as [p ->].
  destruct (Args.save_data a); reflexivity.
Qed.

Lemma base_loggers_csv a : existsb is_csv (base_loggers a) = Args.save_data a.
Proof.
  destruct (base_loggers_shape a) as [p ->].
  destruct (Args.save_data a); reflexivity.
Qed.

Lemma existsb_wandb_app loggers wl :
  existsb is_wandb (loggers ++ [WandbSink wl]) = true.
Proof. rewrite existsb_app. simpl. apply orb_true_r. Qed.

(** C2. For every call of [make_wandb_logger], and of [make_default_logger],
    the logger returned is the dispatcher over the list of sinks wrapped by
    the None filter and by the throttle, with an asynchronous wrapper in the
    chain if and only if [asynchronous] is [True]. *)
Theorem C2_decorator_chain (a : Args.t) (w : World) :
  (exists loggers w',
     make_wandb_logger a w =
     (inr (chain loggers (Args.serialize_fn a) (Args.asynchronous a)
             (clock w') (Args.time_delta a)), w')
     /\ has_async (chain loggers (Args.serialize_fn a) (Args.asynchronous a)
                     (clock w') (Args.time_delta a)) = Args.asynchronous a)
  /\ make_default_logger a w =
     (inr (chain (base_loggers a) (Args.serialize_fn a) (Args.asynchronous a)
             (clock w) (Args.time_delta a)), w)
  /\ has_async (chain (base_loggers a) (Args.serialize_fn a)
                  (Args.asynchronous a) (clock w) (Args.time_delta a))
     = Args.asynchronous a.
Proof.
  split; [| split].
  - destruct (make_wandb_logger_chain a w) as (loggers & w' & _ & Hmake).
    exists loggers, w'. split; [exact Hmake | apply has_async_chain].
  - unfold make_default_logger. apply wrap_chain.
  - apply has_async_chain.
Qed.

(** C1, as amended. For every call of [make_wandb_logger] the list of sinks
    of the dispatcher starts with the terminal logger; the CSV logger follows
    exactly when [save_data] is true; after them comes at most one wandb
    logger, and none when [use_wandb] is false. *)
Theorem C1_sink_list (a : Args.t) (w : World) :
  exists lg w' print_fn tracking,
    make_wandb_logger a w = (inr lg, w')
    /\ sinks lg =
       TerminalLogger (Args.label a) print_fn ::
       (if Args.save_data a
        then [CSVLogger (Args.label a) (Args.save_dir a) (Args.add_uid a)]
        else []) ++ tracking
    /\ (tracking = []
        \/ exists wandb_logger, tracking = [WandbSink wandb_logger])
    /\ (Args.use_wandb a = false -> tracking = [])
    /\ existsb is_terminal (sinks lg) = true
    /\ existsb is_csv (sinks lg) = Args.save_data a.
Proof.
  destruct (make_wandb_logger_chain a w) as (loggers & w' & Hbranch & Hmake).
  destruct (base_loggers_shape a) as [print_fn Hbase].
  assert (Hcsv := base_loggers_csv a).
  exists (chain loggers (Args.serialize_fn a) (Args.asynchronous a)
            (clock w') (Args.time_delta a)), w', print_fn.
  rewrite sinks_chain.
  assert (Hterm : existsb is_terminal
            (TerminalLogger (Args.label a) print_fn ::
             (if Args.save_data a
              then [CSVLogger (Args.label a) (Args.save_dir a) (Args.add_uid a)]
              else [])) = true) by reflexivity.
  rewrite <- Hbase in Hterm.
  inversion Hbranch as [Huse | Huse Hmod | wl w1 Huse Hmod Hinit
                        | e w1 Huse Hmod Hinit]; subst.
  - exists []. rewrite app_nil_r.
    split; [exact Hmake |]. split; [exact Hbase |]. auto 10.
  - exists []. rewrite app_nil_r.
    split; [exact Hmake |]. split; [exact Hbase |]. auto 10.
  - exists [WandbSink wl].
    split; [exact Hmake |]. split; [rewrite Hbase; reflexivity |].
    rewrite !existsb_app, Hterm, Hcsv, Huse. simpl. rewrite orb_false_r.
    repeat split; eauto. discriminate.
  - exists []. rewrite app_nil_r.
    split; [exact Hmake |]. split; [exact Hbase |]. auto 10.
Qed.

(** C1 as stated fails: with [save_data=False], which is what the learner's
    [logger_fn] of the agent passes by default, the list of sinks has no CSV
    logger. *)
Lemma C1_counterexample_no_csv :
  exists lg w',
    make_wandb_logger learner_args world_online = (inr lg, w')
    /\ Args.save_data learner_args = false
    /\ existsb is_csv (sinks lg) = false.
Proof. eexists _, _. split; [reflexivity | split; reflexivity]. Qed.

(** C7, as amended. When [use_wandb] is false no wandb sink is created and
    the world is left as it was, so wandb is not initialized. When
    [use_wandb] is true the wandb sink is appended to the list of sinks
    exactly when the wandb logger module could be imported and the
    constructor of the sink returns; it is then the last sink, and the
    line [Wandb logging enabled for <label>] is printed after what the
    constructor did. Otherwise a warning is printed and the sinks are those
    without wandb: that the wandb logger is not available, when the module
    could not be imported (the constructor is then not called), and that the
    initialization failed, with the exception, when the constructor
    raised. *)
Theorem C7_tracking_sink (a : Args.t) (w : World) :
  exists lg w',
    make_wandb_logger a w = (inr lg, w')
    /\ (Args.use_wandb a = false ->
        existsb is_wandb (sinks lg) = false /\ w' = w)
    /\ (Args.use_wandb a = true ->
        (existsb is_wandb (sinks lg) = true <->
         WANDB_LOGGER_AVAILABLE w = true
         /\ exists wandb_logger w1,
              WandbLogger_of a w = (inr wandb_logger, w1))
        /\ (forall wandb_logger w1,
              WANDB_LOGGER_AVAILABLE w = true ->
              WandbLogger_of a w = (inr wandb_logger, w1) ->
              sinks lg = base_loggers a ++ [WandbSink wandb_logger]
              /\ w' = emit (EvPrint ("Wandb logging enabled for "
                                     +:+ Args.label a)) w1)
        /\ (WANDB_LOGGER_AVAILABLE w = false ->
            sinks lg = base_loggers a
            /\ w' = emit (EvPrint
                            ("Warning: Wandb logging requested but "
                             +:+ "wandb_logger not available for "
                             +:+ Args.label a)) w)
        /\ (forall e w1,
              WANDB_LOGGER_AVAILABLE w = true ->
              WandbLogger_of a w = (inl e, w1) ->
              sinks lg = base_loggers a
              /\ w' = emit (EvPrint
                              ("Warning: Failed to initialize Wandb logger "
                               +:+ "for " +:+ Args.label a +:+ ": "
                               +:+ exc_str e)) w1)).
Proof.
  destruct (make_wandb_logger_chain a w) as (loggers & w' & Hbranch & Hmake).
  eexists _, w'. split; [exact Hmake |].
  rewrite sinks_chain.
  assert (Hbase := base_loggers_no_wandb a).
  inversion Hbranch as [Huse | Huse Hmod | wl w1 Huse Hmod Hinit
                        | e w1 Huse Hmod Hinit]; subst.
  - split; [auto | congruence].
  - split; [congruence |]. intros _. split; [| split; [| split]].
    + rewrite Hbase. split; [discriminate | intros [? _]; congruence].
    + congruence.
    + intros _. split; reflexivity.
    + congruence.
  - split; [congruence |]. intros _. split; [| split; [| split]].
    + rewrite existsb_wandb_app. split; eauto.
    + intros wl' w1' _ Hinit'.
      assert (wl' = wl /\ w1' = w1) as [-> ->] by (split; congruence).
      split; reflexivity.
    + congruence.
    + intros e w1' _ Hinit'. congruence.
  - split; [congruence |]. intros _. split; [| split; [| split]].
    + rewrite Hbase. split; [discriminate |].
      intros (_ & wl & w1' & Hinit'). congruence.
    + congruence.
    + congruence.
    + intros e' w1' _ Hinit'.
      assert (e' = e /\ w1' = w1) as [-> ->] by (split; congruence).
      split; reflexivity.
Qed.

(** C7 as stated fails: tracking is requested, the wandb logger module
    cannot be imported, and the pipeline has no wandb sink. *)
Lemma C7_counterexample_requested_but_absent :
  exists lg w',
    make_wandb_logger learner_args world_no_module = (inr lg, w')
    /\ Args.use_wandb learner_args = true
    /\ existsb is_wandb (sinks lg) = false.
Proof. eexists _, _. split; [reflexivity | split; reflexivity]. Qed.

(** C9. When [use_wandb] is true and the constructor of the wandb sink
    raises, the exception does not reach the caller: [make_wandb_logger]
    prints a warning and returns the pipeline over the terminal logger and,
    when [save_data] is true, the CSV logger. *)
Theorem C9_constructor_exception_caught
    (a : Args.t) (w : World) (e : Exc) (w1 : World) :
  Args.use_wandb a = true ->
  WANDB_LOGGER_AVAILABLE w = true ->
  WandbLogger_of a w = (inl e, w1) ->
  exists lg print_fn,
    make_wandb_logger a w =
    (inr lg,
     emit (EvPrint ("Warning: Failed to initialize Wandb logger for "
                    +:+ Args.label a +:+ ": " +:+ exc_str e)) w1)
    /\ lg = chain (base_loggers a) (Args.serialize_fn a) (Args.asynchronous a)
              (clock w1) (Args.time_delta a)
    /\ sinks lg =
       TerminalLogger (Args.label a) print_fn ::
       (if Args.save_data a
        then [CSVLogger (Args.label a) (Args.save_dir a) (Args.add_uid a)]
        else [])
    /\ existsb is_wandb (sinks lg) = false.
Proof.
  intros Huse Hmod Hinit.
  destruct (make_wandb_logger_chain a w) as (loggers & w' & Hbranch & Hmake).
  destruct (base_loggers_shape a) as [print_fn Hbase].
  assert (Hnone := base_loggers_no_wandb a).
  inversion Hbranch as [Huse' | Huse' Hmod' | wl w1' Huse' Hmod' Hinit'
                        | e' w1' Huse' Hmod' Hinit']; subst;
    try congruence.
  assert (e' = e /\ w1' = w1) as [-> ->] by (split; congruence).
  eexists _, print_fn. split; [exact Hmake |].
  rewrite sinks_chain. auto.
Qed.

(** The constructor raises [ImportError] without the wandb package, and
    [RuntimeError] when there is no run and it is not to make one. *)
Lemma WandbLogger_init_ImportError a w :
  WANDB_AVAILABLE w = false ->
  WandbLogger_of a w =
  (inl (ImportError not_installed), w).
Proof.
  intros H. unfold WandbLogger_of, WandbLogger_init, bind, read.
  rewrite H. reflexivity.
Qed.

Lemma WandbLogger_init_RuntimeError a w :
  WANDB_AVAILABLE w = true -> Args.init_wandb a = false -> wandb_run w = None ->
  WandbLogger_of a w =
  (inl (RuntimeError run_not_initialized), w).
Proof.
  intros H Hi Hr.
  unfold WandbLogger_of, WandbLogger_init, bind, read, time_time, read.
  rewrite H, Hi. simpl. rewrite Hr. reflexivity.
Qed.

Lemma C9_witness :
  (exists lg print_fn,
     make_wandb_logger learner_args world_init_raises =
     (inr lg,
      emit (EvPrint ("Warning: Failed to initialize Wandb logger for "
                     +:+ "learner" +:+ ": " +:+ "network unreachable"))
        (emit (EvWandbInit
                 {| ia_project := "contrastive-rl"; ia_entity := None;
                    ia_config := Args.wandb_config learner_args;
                    ia_group := None; ia_name := None; ia_tags := None;
                    ia_notes := None; ia_mode := "online";
                    ia_reinit := false |}) world_init_raises))
     /\ lg = chain (base_loggers learner_args) (Some utils_fetch_devicearray)
               true 0 10
     /\ sinks lg = TerminalLogger "learner" print_fn :: []
     /\ existsb is_wandb (sinks lg) = false)
  /\ (exists lg print_fn,
        make_wandb_logger actor_args world_no_package =
        (inr lg,
         emit (EvPrint ("Warning: Failed to initialize Wandb logger for "
                        +:+ "actor" +:+ ": " +:+ not_installed))
           world_no_package)
        /\ lg = chain (base_loggers actor_args) (Some base_to_numpy) false 0 1
        /\ sinks lg =
           TerminalLogger "actor" print_fn :: [CSVLogger "actor" "logs" true]
        /\ existsb is_wandb (sinks lg) = false).
Proof.
  split.
  - exact (C9_constructor_exception_caught learner_args world_init_raises
             (OtherException "network unreachable") _
             eq_refl eq_refl eq_refl).
  - exact (C9_constructor_exception_caught actor_args world_no_package
             (ImportError not_installed)
             world_no_package eq_refl eq_refl eq_refl).
Defined.

(** ** The agent assembler *)

Lemma init_asserts (a : Init.t) :
  (0 < Config.max_episode_steps (Init.config a))%Z ->
  (0 < Config.obs_dim (Init.config a))%Z ->
  exists layout, DistributedContrastive_init a = inr layout.
Proof.
  intros H1 H2. unfold DistributedContrastive_init.
  apply Z.ltb_lt in H1, H2. rewrite H1, H2. simpl. eexists. reflexivity.
Qed.

(** C10. [DistributedContrastive.__init__] raises [AssertionError] exactly
    on the configurations that violate [max_episode_steps > 0] or
    [obs_dim > 0], before anything is built; on the others the assertions
    pass and the base class constructor is called. *)
Theorem C10_assertions (a : Init.t) :
  (DistributedContrastive_init a = inl AssertionError <->
   ~ ((0 < Config.max_episode_steps (Init.config a))%Z
      /\ (0 < Config.obs_dim (Init.config a))%Z))
  /\ (((0 < Config.max_episode_steps (Init.config a))%Z
       /\ (0 < Config.obs_dim (Init.config a))%Z) <->
      exists layout, DistributedContrastive_init a = inr layout).
Proof.
  unfold DistributedContrastive_init.
  destruct (0 <? Config.max_episode_steps (Init.config a))%Z eqn:H1;
    destruct (0 <? Config.obs_dim (Init.config a))%Z eqn:H2; simpl;
    rewrite ?Z.ltb_lt, ?Z.ltb_ge in H1, H2.
  - split; split.
    + discriminate.
    + intros H. exfalso. apply H. split; assumption.
    + eexists. reflexivity.
    + intros _. split; assumption.
  - split; split.
    + intros _ [_ H]. lia.
    + reflexivity.
    + intros [_ H]. lia.
    + intros [l Hl]. discriminate.
  - split; split.
    + intros _ [H _]. lia.
    + reflexivity.
    + intros [H _]. lia.
    + intros [l Hl]. discriminate.
  - split; split.
    + intros _ [H _]. lia.
    + reflexivity.
    + intros [H _]. lia.
    + intros [l Hl]. discriminate.
Qed.

Example init_unset_config :
  DistributedContrastive_init (init_of config_unset) = inl AssertionError.
Proof. reflexivity. Qed.

(** C6. The metadata dictionary is built if and only if [config.use_wandb]
    is true; it then has exactly the fourteen keys, each with its value from
    the configuration or from the arguments of the constructor. Otherwise
    [None] is what the learner's logger factory gets as [wandb_config]. *)
Theorem C6_wandb_metadata (a : Init.t) (layout : Layout.kwargs) :
  DistributedContrastive_init a = inr layout ->
  let config := Init.config a in
  let wandb_config :=
    Args.wandb_config (Builder.logger_fn (Layout.builder layout)) in
  (is_Some wandb_config <-> Config.use_wandb config = true)
  /\ (Config.use_wandb config = false -> wandb_config = None)
  /\ (Config.use_wandb config = true ->
      exists d : dict,
        wandb_config = Some d
        /\ dom d = list_to_set wandb_config_keys
        /\ d !! "algorithm" = Some (VStr (Config.alg_name config))
        /\ d !! "environment" = Some (VStr (Config.env_name config))
        /\ d !! "seed" = Some (VInt (Init.seed a))
        /\ d !! "max_steps" = Some (Config.max_number_of_steps config)
        /\ d !! "num_actors" = Some (VInt (Init.num_actors a))
        /\ d !! "batch_size" = Some (Config.batch_size config)
        /\ d !! "learning_rate" = Some (Config.learning_rate config)
        /\ d !! "actor_learning_rate" = Some (Config.actor_learning_rate config)
        /\ d !! "discount" = Some (Config.discount config)
        /\ d !! "tau" = Some (Config.tau config)
        /\ d !! "use_td" = Some (Config.use_td config)
        /\ d !! "use_cpc" = Some (Config.use_cpc config)
        /\ d !! "repr_dim" = Some (Config.repr_dim config)
        /\ d !! "hidden_layer_sizes" = Some (Config.hidden_layer_sizes config)).
Proof.
  unfold DistributedContrastive_init.
  destruct (negb _); [discriminate |].
  destruct (negb _); [discriminate |].
  intros [= <-]. simpl.
  unfold wandb_config_dict_of.
  destruct (Config.use_wandb (Init.config a)).
  - split; [split; eauto |]. split; [discriminate |].
    intros _. eexists. split; [reflexivity |].
    split; [| repeat split; reflexivity].
    rewrite dom_list_to_map_L. reflexivity.
  - split; [split; [intros [? ?]; discriminate | discriminate] |].
    split; [reflexivity | discriminate].
Qed.

Lemma C6_witness :
  exists layout d,
    DistributedContrastive_init (init_of config0) = inr layout
    /\ Args.wandb_config (Builder.logger_fn (Layout.builder layout)) = Some d
    /\ dom d = list_to_set wandb_config_keys
    /\ d !! "seed" = Some (VInt 0)
    /\ d !! "hidden_layer_sizes" = Some (VSeq [VInt 256; VInt 256]).
Proof.
  destruct (C6_wandb_metadata (init_of config0) _ eq_refl) as (_ & _ & H).
  destruct (H eq_refl) as (d & Hd & Hdom & H1 & H2 & H3 & H4 & H5 & H6 & H7
                           & H8 & H9 & H10 & H11 & H12 & H13 & H14).
  eexists _, d. split; [reflexivity |]. auto.
Defined.

(** C5, as amended. The constructor has control flow of its own: two
    assertions and the branches on [config.use_wandb], on
    [evaluator_factories is None] and on [config.local]. When the assertions
    pass it calls the base class constructor with [seed], the environment
    and network factories, [num_actors], [max_number_of_steps],
    [log_to_bigtable] and [config] as it received them; it passes
    [evaluator_factories] on as received when the caller gave a list, and
    otherwise replaces it by the list of the default evaluator factory, or by
    the empty list when [config.local] is true. *)
Theorem C5_forwarding (a : Init.t) :
  (0 < Config.max_episode_steps (Init.config a))%Z ->
  (0 < Config.obs_dim (Init.config a))%Z ->
  exists layout,
    DistributedContrastive_init a = inr layout
    /\ passes_on a layout
    /\ Builder.config (Layout.builder layout) = Init.config a
    /\ (forall given,
          Init.evaluator_factories a = Some given ->
          Layout.evaluator_factories layout = given)
    /\ (Init.evaluator_factories a = None ->
        Layout.evaluator_factories layout =
        if Config.local (Init.config a) then [] else [default_evaluator a]).
Proof.
  intros H1 H2. unfold DistributedContrastive_init.
  apply Z.ltb_lt in H1, H2. rewrite H1, H2. simpl.
  eexists. split; [reflexivity |]. simpl.
  split; [repeat split |]. split; [reflexivity |].
  split.
  - intros given ->. reflexivity.
  - intros ->. reflexivity.
Qed.

Lemma C5_witness :
  exists layout,
    DistributedContrastive_init (init_of config0) = inr layout
    /\ passes_on (init_of config0) layout
    /\ Layout.evaluator_factories layout =
       [default_evaluator (init_of config0)].
Proof.
  destruct (C5_forwarding (init_of config0) eq_refl eq_refl)
    as (layout & Hinit & Hpass & _ & _ & Hnone).
  exists layout. split; [exact Hinit |]. split; [exact Hpass |].
  exact (Hnone eq_refl).
Defined.

(** C5 as stated fails. With the environment-specific parts of the
    configuration unset the constructor raises and passes nothing on; and
    with [evaluator_factories] left at [None] the base class constructor
    receives a list the constructor has chosen by a branch on
    [config.local], not the argument. *)
Lemma C5_counterexample_control_flow :
  DistributedContrastive_init (init_of config_unset) = inl AssertionError
  /\ exists layout,
       DistributedContrastive_init (init_of config0) = inr layout
       /\ Init.evaluator_factories (init_of config0) = None
       /\ Layout.evaluator_factories layout =
          [default_evaluator (init_of config0)].
Proof.
  split; [reflexivity |].
  eexists. split; [reflexivity |]. split; reflexivity.
Qed.

(** ** The wandb sink *)

#[local] Instance prefix_key_inj (label : string) :
  Inj (=) (=) (prefix_key label).
Proof.
  intros k1 k2 H. unfold prefix_key in H.
  apply (inj (String.app label)) in H.
  apply (inj (String.app "/")) in H. exact H.
Qed.

Lemma WandbLogger_init_returns label project entity config group name tags
    notes mode init_wandb w0 self w1 :
  WandbLogger_init label project entity config group name tags notes mode
    init_wandb w0 = (inr self, w1) ->
  _label self = label /\ is_Some (_run self).
Proof.
  unfold WandbLogger_init, bind, read, time_time, read.
  destruct (WANDB_AVAILABLE w0); simpl; [| discriminate].
  destruct init_wandb.
  - destruct (wandb_run w0) as [r |] eqn:Hrun.
    + simpl. intros [= <- <-]. simpl. eauto.
    + unfold wandb_init.
      destruct (wandb_init_outcome w0 _) as [e | [r |]];
        [discriminate | | discriminate].
      intros [= <- <-]. simpl. eauto.
  - destruct (wandb_run w0) as [r |] eqn:Hrun; [| discriminate].
    intros [= <- <-]. simpl. eauto.
Qed.

Lemma first_present_extract_step (data : dict) :
  match first_present data with
  | Some v => extract_step data = v /\ is_None v = false
  | None => is_None (extract_step data) = true
  end.
Proof.
  unfold first_present, extract_step. simpl.
  destruct (is_None (get data "steps")) eqn:H1; simpl.
  - destruct (is_None (get data "learner_steps")) eqn:H2; simpl.
    + destruct (is_None (get data "actor_steps")) eqn:H3; simpl; auto.
    + rewrite H2. auto.
  - rewrite H1. auto.
Qed.

Lemma first_present_absent (data : dict) :
  data !! "steps" = None -> data !! "learner_steps" = None ->
  data !! "actor_steps" = None -> first_present data = None.
Proof.
  intros H1 H2 H3. unfold first_present, get. simpl.
  rewrite H1, H2, H3. reflexivity.
Qed.

Section WandbWrite.

Variable int : Value -> Exc + Z.

(** C8, as amended. For a [WandbLogger] built with label [label] and a
    dictionary passed to [write], the step is looked up in the dictionary as
    given, under [steps], [learner_steps], [actor_steps] in this order, a key
    that holds [None] counting as absent. When one of them holds a value and
    [int] converts it, every key [key] of the dictionary is logged under the
    key [label/key], and nothing else, with the converted value as the step.
    When [int] raises on it, the exception reaches the caller and nothing is
    logged. When none of them holds a value, which is so when none of the
    three keys is there, every key is logged under [label/key] and no step
    is passed. *)
Theorem C8_write_prefix_and_step
    (label project : string) (entity : option string) (config : option dict)
    (group name : option string) (tags : option (list string))
    (notes : option string) (mode : string) (init_wandb : bool)
    (w0 w1 : World) (self : WandbLogger) (data : dict) (w : World) :
  WandbLogger_init label project entity config group name tags notes mode
    init_wandb w0 = (inr self, w1) ->
  (forall key, prefixed label data !! prefix_key label key = data !! key)
  /\ (forall logged,
        is_Some (prefixed label data !! logged) ->
        exists key, logged = prefix_key label key /\ is_Some (data !! key))
  /\ match first_present data with
     | Some v =>
         match int v with
         | inr step =>
             WandbLogger_write int self data w =
             (inr tt, emit (EvWandbLog (prefixed label data) (Some step)) w)
         | inl e => WandbLogger_write int self data w = (inl e, w)
         end
     | None =>
         WandbLogger_write int self data w =
         (inr tt, emit (EvWandbLog (prefixed label data) None) w)
     end
  /\ (data !! "steps" = None -> data !! "learner_steps" = None ->
      data !! "actor_steps" = None -> first_present data = None).
Proof.
  intros Hinit.
  apply WandbLogger_init_returns in Hinit as [Hlabel [run Hrun]].
  split; [| split; [| split]].
  - intros key. unfold prefixed. apply lookup_kmap, _.
  - intros logged Hsome. unfold prefixed in Hsome.
    apply lookup_kmap_is_Some in Hsome; [exact Hsome | apply _].
  - unfold WandbLogger_write. rewrite Hrun, Hlabel.
    pose proof (first_present_extract_step data) as Hstep.
    destruct (first_present data) as [v |].
    + destruct Hstep as [-> ->]. simpl.
      destruct (int v); reflexivity.
    + rewrite Hstep. reflexivity.
  - apply first_present_absent.
Qed.

End WandbWrite.

Lemma C8_witness :
  exists self w1,
    WandbLogger_init "learner" "contrastive-rl" None None None None None None
      "online" true world_online = (inr self, w1)
    /\ WandbLogger_write int_of_number self
         {[ "loss" := VFloat (1 # 2); "learner_steps" := VInt 7 ]} w1 =
       (inr tt,
        emit (EvWandbLog
                {[ "learner/loss" := VFloat (1 # 2);
                   "learner/learner_steps" := VInt 7 ]} (Some 7%Z)) w1).
Proof.
  eexists _, _. split; [reflexivity |].
  pose proof (C8_write_prefix_and_step int_of_number
    "learner" "contrastive-rl" None None None None None None "online" true
    world_online _ _
    {[ "loss" := VFloat (1 # 2); "learner_steps" := VInt 7 ]}
    (set_wandb_run (Some (RunHandle 1))
       (emit (EvWandbInit
          {| ia_project := "contrastive-rl"; ia_entity := None;
             ia_config := None; ia_group := None; ia_name := None;
             ia_tags := None; ia_notes := None; ia_mode := "online";
             ia_reinit := false |}) world_online))
    eq_refl) as (_ & _ & H & _).
  exact H.
Defined.

(** C8 as stated fails. A record whose [steps] is a list is not logged at
    all: [int] raises and the exception reaches the caller. And with [steps]
    there but holding [None], the step is not taken from it, the first of
    the three keys that is present, but from [learner_steps]. *)
Lemma C8_counterexample_not_logged :
  exists self w1,
    WandbLogger_init "learner" "contrastive-rl" None None None None None None
      "online" true world_online = (inr self, w1)
    /\ (exists e,
          WandbLogger_write int_of_number self
            {[ "loss" := VFloat (1 # 4);
               "steps" := VSeq [VInt 1; VInt 2] ]} w1 = (inl e, w1))
    /\ ({[ "steps" := VNone; "learner_steps" := VInt 5 ]} : dict) !! "steps"
       = Some VNone
    /\ WandbLogger_write int_of_number self
         {[ "steps" := VNone; "learner_steps" := VInt 5 ]} w1 =
       (inr tt,
        emit (EvWandbLog
                {[ "learner/steps" := VNone;
                   "learner/learner_steps" := VInt 5 ]} (Some 5%Z)) w1).
Proof.
  eexists _, _. split; [reflexivity |].
  split; [eexists; reflexivity |]. split; reflexivity.
Qed.

(** ** Writing through the pipeline *)

Lemma elapsed_true (now last time_delta : Q) :
  elapsed now last time_delta = true <-> (time_delta < now - last)%Q.
Proof.
  unfold elapsed. rewrite negb_true_iff.
  destruct (Qle_bool (now - last) time_delta) eqn:H.
  - apply Qle_bool_iff in H. split; [discriminate | intros; lra].
  - split; [intros _ | reflexivity].
    apply Qnot_le_lt. intros Hle. apply Qle_bool_iff in Hle. congruence.
Qed.

Lemma elapsed_false (now last time_delta : Q) :
  (now - last <= time_delta)%Q -> elapsed now last time_delta = false.
Proof.
  intros H. destruct (elapsed now last time_delta) eqn:E; [| reflexivity].
  apply elapsed_true in E. lra.
Qed.

Section PipelineWrites.

Variable int : Value -> Exc + Z.
Variable serialize : SerializeFn -> dict -> dict.


(** A write that comes too early leaves pipeline and world as they are. *)
Lemma TimeFilter_drops to last time_delta values w :
  (clock w - last <= time_delta)%Q ->
  Logger_write int serialize (TimeFilter to last time_delta) values w =
  (inr (TimeFilter to last time_delta), w).
Proof.
  intros H. simpl. unfold bind, time_time, read.
  rewrite (elapsed_false _ _ _ H). reflexivity.
Qed.

(** A write leaves the throttle at the head, with the same interval, and
    moves its reference time only to the time of a write it passed on. *)
Lemma TimeFilter_write_head to last time_delta values w lg' w' :
  Logger_write int serialize (TimeFilter to last time_delta) values w =
  (inr lg', w') ->
  exists to' last',
    lg' = TimeFilter to' last' time_delta
    /\ (if elapsed (clock w) last time_delta then last' = clock w
        else last' = last /\ to' = to /\ w' = w).
Proof.
  simpl. unfold bind, time_time, read.
  destruct (elapsed (clock w) last time_delta).
  - destruct (Logger_write int serialize to values w) as [[e | to'] w2];
      [discriminate |].
    intros [= <- <-]. eauto.
  - intros [= <- <-]. unfold ret. eauto 6.
Qed.

Lemma write_script_head script : forall to last time_delta w lg' w',
  write_script int serialize script (TimeFilter to last time_delta) w =
  (inr lg', w') ->
  exists to' last', lg' = TimeFilter to' last' time_delta.
Proof.
  induction script as [| [now values] rest IH]; intros to last d w lg' w'.
  - intros [= <- <-]. eauto.
  - cbn [write_script]. unfold bind at 1.
    destruct (Logger_write int serialize (TimeFilter to last d) values
                (set_clock now w))
      as [[e | lg1] w1] eqn:Hw; [discriminate |].
    apply TimeFilter_write_head in Hw as (to1 & last1 & -> & _).
    apply IH.
Qed.

Lemma separated_after (time_delta : Q) script :
  (0 <= time_delta)%Q ->
  forall to last w,
    Forall (fun t => (time_delta < t - last)%Q)
      (forward_times int serialize script (TimeFilter to last time_delta) w)
    /\ separated time_delta
         (forward_times int serialize script (TimeFilter to last time_delta) w).
Proof.
  intros Hpos.
  induction script as [| [now values] rest IH]; intros to last' w.
  - simpl. split; [constructor | exact I].
  - cbn [forward_times forwards].
    destruct (Logger_write int serialize (TimeFilter to last' time_delta) values
                (set_clock now w)) as [[e | lg1] w1] eqn:Hw.
    + rewrite app_nil_r.
      destruct (elapsed now last' time_delta) eqn:He; simpl.
      * apply elapsed_true in He. repeat constructor. exact He.
      * split; [constructor | exact I].
    + apply TimeFilter_write_head in Hw as (to1 & last1 & -> & Hlast).
      simpl in Hlast.
      destruct (IH to1 last1 w1) as [Hall Hsep].
      destruct (elapsed now last' time_delta) eqn:He; simpl.
      * subst last1. apply elapsed_true in He.
        split; [| split; assumption].
        constructor; [exact He |].
        eapply Forall_impl; [exact Hall |]. simpl. intros t Ht. lra.
      * destruct Hlast as (-> & _ & _). split; assumption.
Qed.

Lemma consecutive_after (time_delta : Q) script :
  forall to last w,
    match forward_times int serialize script
            (TimeFilter to last time_delta) w with
    | t :: _ => (time_delta < t - last)%Q
    | [] => True
    end
    /\ consecutive_apart time_delta
         (forward_times int serialize script
            (TimeFilter to last time_delta) w).
Proof.
  induction script as [| [now values] rest IH]; intros to last' w.
  - simpl. split; exact I.
  - cbn [forward_times forwards].
    destruct (Logger_write int serialize (TimeFilter to last' time_delta)
                values (set_clock now w)) as [[e | lg1] w1] eqn:Hw.
    + rewrite app_nil_r.
      destruct (elapsed now last' time_delta) eqn:He; simpl; auto.
      apply elapsed_true in He. auto.
    + apply TimeFilter_write_head in Hw as (to1 & last1 & -> & Hlast).
      simpl in Hlast.
      destruct (IH to1 last1 w1) as [Hhead Hcons].
      destruct (elapsed now last' time_delta) eqn:He; simpl.
      * subst last1. apply elapsed_true in He.
        split; [exact He |]. split; [| exact Hcons].
        destruct (forward_times int serialize rest _ w1); auto.
      * destruct Hlast as (-> & _ & _). split; assumption.
Qed.

(** C4. A pipeline returned by [make_wandb_logger], after any writes: a
    write that comes less than [time_delta] seconds after the last write
    that was passed on (or after the construction, when none was) is dropped,
    pipeline and world staying as they are; a write that is passed on becomes
    the last one; and of the writes that are passed on, each comes more than
    [time_delta] seconds after the one before it, so that (the interval not
    being negative) any two of them are more than [time_delta] seconds
    apart. *)
Theorem C4_throttle (a : Args.t) (w0 : World) :
  exists lg w1,
    make_wandb_logger a w0 = (inr lg, w1)
    /\ (forall script w lg' w',
          write_script int serialize script lg w = (inr lg', w') ->
          (forall values w2,
             (clock w2 - last_of lg' < Args.time_delta a)%Q ->
             Logger_write int serialize lg' values w2 = (inr lg', w2))
          /\ (forall values w2 lg2 w3,
                (Args.time_delta a < clock w2 - last_of lg')%Q ->
                Logger_write int serialize lg' values w2 = (inr lg2, w3) ->
                last_of lg2 = clock w2))
    /\ (forall script w,
          consecutive_apart (Args.time_delta a)
            (forward_times int serialize script lg w))
    /\ ((0 <= Args.time_delta a)%Q ->
        forall script w,
          separated (Args.time_delta a)
            (forward_times int serialize script lg w)).
Proof.
  destruct (make_wandb_logger_chain a w0) as (loggers & w1 & _ & Hmake).
  eexists _, w1. split; [exact Hmake |].
  unfold chain. split; [| split].
  - intros script w lg' w' Hrun.
    apply write_script_head in Hrun as (to' & last' & ->). simpl.
    split.
    + intros values w2 Hlt. apply TimeFilter_drops. lra.
    + intros values w2 lg2 w3 Hgt Hw.
      apply TimeFilter_write_head in Hw as (to2 & last2 & -> & Hlast).
      apply elapsed_true in Hgt. rewrite Hgt in Hlast. exact Hlast.
  - intros script w. apply consecutive_after.
  - intros Hpos script w. apply separated_after. exact Hpos.
Qed.

Lemma Sink_write_appends s values w :
  exists later, events (Sink_write int s values w).2 = events w ++ later.
Proof.
  destruct s as [label p | label dir uid | wl]; simpl.
  - eexists. reflexivity.
  - eexists. reflexivity.
  - unfold WandbLogger_write. destruct (_run wl).
    + destruct (negb _).
      * destruct (int _); [exists []; simpl; apply eq_sym, app_nil_r |].
        eexists. reflexivity.
      * eexists. reflexivity.
    + exists []. simpl. apply eq_sym, app_nil_r.
Qed.

Lemma write_all_appends to values : forall w,
  exists later, events (write_all int to values w).2 = events w ++ later.
Proof.
  induction to as [| s rest IH]; intros w; simpl.
  - exists []. apply eq_sym, app_nil_r.
  - unfold bind.
    destruct (Sink_write_appends s values w) as [l1 H1].
    destruct (Sink_write int s values w) as [[e | []] w2]; simpl in *.
    + eauto.
    + destruct (IH w2) as [l2 H2]. exists (l1 ++ l2).
      rewrite H2, H1. apply eq_sym, app_assoc.
Qed.

(** The world after a write that the throttle passes on, once the queue is
    empty, is the world after the dispatch of the record, stripped of its
    [None] entries and serialized, to the sinks. *)
Lemma write_and_drain_world loggers ser asy last time_delta values w :
  elapsed (clock w) last time_delta = true ->
  (write_and_drain int serialize (chain loggers ser asy last time_delta)
     values w).2 =
  (write_all int loggers (serialized serialize ser (strip_None values)) w).2.
Proof.
  intros He. unfold write_and_drain, chain.
  destruct asy; simpl.
  - unfold bind at 1 2, time_time, read. rewrite He. simpl.
    unfold bind, ret. simpl. unfold bind, ret, Dispatcher_write.
    destruct (write_all int loggers
                (serialized serialize ser (strip_None values)) w)
      as [[e | []] w2]; reflexivity.
  - unfold bind, time_time, read, ret, Dispatcher_write. rewrite He.
    destruct (write_all int loggers
                (serialized serialize ser (strip_None values)) w)
      as [[e | []] w2]; reflexivity.
Qed.

Lemma strip_None_lookup (values : dict) (key : string) :
  strip_None values !! key =
  match values !! key with
  | Some v => if is_None v then None else Some v
  | None => None
  end.
Proof.
  unfold strip_None. rewrite map_lookup_filter.
  destruct (values !! key) as [v |]; simpl; [| reflexivity].
  destruct (is_None v) eqn:Hv; reflexivity.
Qed.

(** C3, as amended. The None filter removes from a record the entries whose
    value is [None] and passes the rest on; it drops no record. A record
    that the throttle passes on, the empty one as any other, reaches the
    sinks: the terminal logger receives it, stripped of its [None] entries
    and serialized. *)
Theorem C3_None_entries_removed (a : Args.t) (w0 : World) :
  exists loggers w1,
    make_wandb_logger a w0 =
    (inr (chain loggers (Args.serialize_fn a) (Args.asynchronous a)
            (clock w1) (Args.time_delta a)), w1)
    /\ (forall last values w,
          elapsed (clock w) last (Args.time_delta a) = true ->
          exists later,
            events (write_and_drain int serialize
                      (chain loggers (Args.serialize_fn a)
                         (Args.asynchronous a) last (Args.time_delta a))
                      values w).2 =
            events w ++
            EvTerminalWrite (Args.label a)
              (serialized serialize (Args.serialize_fn a) (strip_None values))
            :: later)
    /\ (forall (values : dict) key, strip_None values !! key <> Some VNone)
    /\ (forall (values : dict) key v,
          values !! key = Some v -> is_None v = false ->
          strip_None values !! key = Some v)
    /\ strip_None ∅ = ∅.
Proof.
  destruct (make_wandb_logger_chain a w0) as (loggers & w1 & Hbranch & Hmake).
  exists loggers, w1. split; [exact Hmake |].
  split; [| split; [| split]].
  - intros last values w He.
    rewrite write_and_drain_world by exact He.
    assert (exists print_fn rest,
               loggers = TerminalLogger (Args.label a) print_fn :: rest)
      as (print_fn & rest & ->).
    { destruct (base_loggers_shape a) as [p Hbase].
      inversion Hbranch; subst; rewrite Hbase; simpl; eauto. }
    simpl. unfold bind at 1. simpl.
    destruct (write_all_appends rest
                (serialized serialize (Args.serialize_fn a) (strip_None values))
                (emit (EvTerminalWrite (Args.label a)
                         (serialized serialize (Args.serialize_fn a)
                            (strip_None values))) w)) as [later Hlater].
    exists later. rewrite Hlater. simpl. rewrite <- app_assoc. reflexivity.
  - intros values key. rewrite strip_None_lookup.
    destruct (values !! key) as [v |]; [| discriminate].
    destruct v; simpl; discriminate.
  - intros values key v Hv Hnone. rewrite strip_None_lookup, Hv, Hnone.
    reflexivity.
  - apply map_filter_empty.
Qed.

End PipelineWrites.

(** C3 as stated fails: an empty record written to the pipeline of the
    defaults, five seconds after its construction, reaches the terminal
    logger and the CSV logger. *)
Lemma C3_counterexample_empty_record_reaches_sinks :
  exists lg w1,
    make_wandb_logger (Args.defaults "learner") world_online = (inr lg, w1)
    /\ events w1 = []
    /\ events (write_and_drain int_of_number serialize_id lg ∅
                 (set_clock 5 w1)).2 =
       [ EvTerminalWrite "learner" ∅; EvCSVWrite "learner" "logs" ∅ ].
Proof. eexists _, _. split; [reflexivity | split; reflexivity]. Qed.

(** ** The pipelines at work *)

(** The pipeline of the defaults, built at time 0 in [world_online]. *)
Example default_pipeline :
  make_wandb_logger (Args.defaults "learner") world_online =
  (inr (TimeFilter
          (NoneFilter
             (Dispatcher
                [ TerminalLogger "learner" logging_info;
                  CSVLogger "learner" "logs" true ]
                (Some base_to_numpy)))
          0 1),
   world_online).
Proof. reflexivity. Qed.

(** A record with a [None] entry, written five seconds later: the sinks
    get it without the entry. *)
Example write_strips_None :
  events (write_and_drain int_of_number serialize_id
            (chain (base_loggers (Args.defaults "learner"))
               (Some base_to_numpy) false 0 1)
            {[ "loss" := VNone; "steps" := VInt 3 ]}
            (set_clock 5 world_online)).2 =
  [ EvTerminalWrite "learner" {[ "steps" := VInt 3 ]};
    EvCSVWrite "learner" "logs" {[ "steps" := VInt 3 ]} ].
Proof. reflexivity. Qed.

(** Of three writes at times 2, 5/2 and 4 with [time_delta = 1], the second
    is dropped. *)
Example throttle_script :
  forward_times int_of_number serialize_id
    [ (2%Q, {[ "steps" := VInt 1 ]});
      (5 # 2, {[ "steps" := VInt 2 ]});
      (4%Q, {[ "steps" := VInt 3 ]}) ]
    (chain (base_loggers (Args.defaults "learner")) (Some base_to_numpy)
       false 0 1)
    world_online = [2%Q; 4%Q].
Proof. reflexivity. Qed.

Example throttle_script_events :
  events (write_script int_of_number serialize_id
            [ (2%Q, {[ "steps" := VInt 1 ]});
              (5 # 2, {[ "steps" := VInt 2 ]});
              (4%Q, {[ "steps" := VInt 3 ]}) ]
            (chain [TerminalLogger "learner" logging_info]
               (Some base_to_numpy) false 0 1)
            world_online).2 =
  [ EvTerminalWrite "learner" {[ "steps" := VInt 1 ]};
    EvTerminalWrite "learner" {[ "steps" := VInt 3 ]} ].
Proof. reflexivity. Qed.

(** The learner's pipeline of the agent: wandb is initialized with the
    metadata, and a record reaches the terminal logger and wandb once the
    worker has run. *)
Example learner_pipeline :
  exists lg w1,
    make_wandb_logger learner_args world_online = (inr lg, w1)
    /\ events w1 =
       [ EvWandbInit
           {| ia_project := "contrastive-rl"; ia_entity := None;
              ia_config := wandb_config_dict_of config0 0 4;
              ia_group := None; ia_name := None; ia_tags := None;
              ia_notes := None; ia_mode := "online"; ia_reinit := false |};
         EvPrint "Wandb logging enabled for learner" ]
    /\ has_async lg = true
    /\ List.map is_wandb (sinks lg) = [false; true]
    /\ skipn 2
         (events (write_and_drain int_of_number serialize_id lg
                    {[ "critic_loss" := VFloat (1 # 4);
                       "learner_steps" := VInt 100 ]}
                    (set_clock 11 w1)).2) =
       [ EvTerminalWrite "learner"
           {[ "critic_loss" := VFloat (1 # 4); "learner_steps" := VInt 100 ]};
         EvWandbLog
           {[ "learner/critic_loss" := VFloat (1 # 4);
              "learner/learner_steps" := VInt 100 ]} (Some 100%Z) ].
Proof. eexists _, _. split; [reflexivity |]. repeat split; reflexivity. Qed.

(** * Beyond the claims *)

From Stdlib Require Import Ascii DecimalPos DecimalZ.

(** ** Definitions *)

(** The keyword arguments with which [make_wandb_logger] has the
    constructor call [wandb.init]. *)
Definition wandb_init_kwargs (a : Args.t) : InitArgs :=
  {| ia_project := Args.wandb_project a;
     ia_entity := Args.wandb_entity a;
     ia_config := Args.wandb_config a;
     ia_group := Args.wandb_group a;
     ia_name := Args.wandb_name a;
     ia_tags := Args.wandb_tags a;
     ia_notes := Args.wandb_notes a;
     ia_mode := Args.wandb_mode a;
     ia_reinit := false |}.

(** Whether a call of [make_wandb_logger] gets as far as [wandb.init]: lines
    134-135 of [default.py], 51 and 60-62 of [wandb_logger.py]. *)
Definition reaches_wandb_init (a : Args.t) (w : World) : bool :=
  Args.use_wandb a && WANDB_LOGGER_AVAILABLE w && WANDB_AVAILABLE w
  && Args.init_wandb a && negb (bool_decide (is_Some (wandb_run w))).

Definition is_print (e : Event) : bool :=
  match e with EvPrint _ => true | _ => false end.

(** The runs held by the wandb sinks of a list of sinks. *)
Fixpoint runs_of (l : list Sink) : list (option Run) :=
  match l with
  | [] => []
  | WandbSink logger :: rest => _run logger :: runs_of rest
  | _ :: rest => runs_of rest
  end.

(** [a] with another [steps_key]. *)
Definition with_steps_key (steps_key : string) (a : Args.t) : Args.t :=
  {| Args.label := Args.label a;
     Args.save_data := Args.save_data a;
     Args.save_dir := Args.save_dir a;
     Args.add_uid := Args.add_uid a;
     Args.time_delta := Args.time_delta a;
     Args.asynchronous := Args.asynchronous a;
     Args.print_fn := Args.print_fn a;
     Args.serialize_fn := Args.serialize_fn a;
     Args.steps_key := steps_key;
     Args.use_wandb := Args.use_wandb a;
     Args.wandb_project := Args.wandb_project a;
     Args.wandb_entity := Args.wandb_entity a;
     Args.wandb_group := Args.wandb_group a;
     Args.wandb_name := Args.wandb_name a;
     Args.wandb_tags := Args.wandb_tags a;
     Args.wandb_notes := Args.wandb_notes a;
     Args.wandb_mode := Args.wandb_mode a;
     Args.wandb_config := Args.wandb_config a;
     Args.init_wandb := Args.init_wandb a |}.

(** Whether the character [c] occurs in [s]. *)
Fixpoint occurs (c : Ascii.ascii) (s : string) : bool :=
  match s with
  | EmptyString => false
  | String c' s' => Ascii.eqb c c' || occurs c s'
  end.

(** The [DistanceObserver] among [observers] are built for a positive
    observation dimension. *)
Definition positive_obs_dim (observers : list Observer) : Prop :=
  forall obs_dim start_index end_index,
    In (DistanceObserver obs_dim start_index end_index) observers ->
    (0 < obs_dim)%Z.

(** [int(s)] for the strings that [str] makes of an [int]. *)
Definition parse_int (s : string) : option Z :=
  option_map Z.of_int (NilZero.int_of_string s).

(** [wandb.finish()]: the SDK ends the run, and [wandb.run] is [None]
    afterwards. *)
Definition wandb_finish : M unit := fun w => (inr tt, set_wandb_run None w).

(** [finish_wandb()] of [contrastive/wandb_logger.py]. *)
Definition finish_wandb : M unit :=
  available <- read WANDB_AVAILABLE ;;
  run <- read wandb_run ;;
  if available && negb (bool_decide (run = None)) then wandb_finish
  else ret tt.

(** ** The constructor of the wandb sink *)

(** Every way through [WandbLogger.__init__]. *)
Lemma WandbLogger_of_cases (a : Args.t) (w : World) :
  WandbLogger_of a w =
  if negb (WANDB_AVAILABLE w) then (inl (ImportError not_installed), w)
  else
    match wandb_run w with
    | Some r =>
        (inr {| _label := Args.label a; _time := clock w; _run := Some r |}, w)
    | None =>
        if Args.init_wandb a then
          match wandb_init_outcome w (wandb_init_kwargs a) with
          | inl e => (inl e, emit (EvWandbInit (wandb_init_kwargs a)) w)
          | inr (Some r) =>
              (inr {| _label := Args.label a; _time := clock w;
                      _run := Some r |},
               set_wandb_run (Some r)
                 (emit (EvWandbInit (wandb_init_kwargs a)) w))
          | inr None =>
              (inl (RuntimeError run_not_initialized),
               set_wandb_run None
                 (emit (EvWandbInit (wandb_init_kwargs a)) w))
          end
        else (inl (RuntimeError run_not_initialized), w)
    end.
Proof.
  unfold WandbLogger_of, WandbLogger_init, bind, read, time_time, read.
  destruct (WANDB_AVAILABLE w); simpl; [| reflexivity].
  destruct (Args.init_wandb a), (wandb_run w) as [r |]; simpl;
    try reflexivity.
  unfold wandb_init. fold (wandb_init_kwargs a).
  destruct (wandb_init_outcome w (wandb_init_kwargs a)) as [e | [r |]];
    reflexivity.
Qed.

(** X1. The constructor returns a logger exactly when the wandb package is
    there and either a run exists already, or [init_wandb] is true and
    [wandb.init] returns a run. *)
Theorem X1_constructor_returns_iff (a : Args.t) (w : World) :
  (exists self w1, WandbLogger_of a w = (inr self, w1)) <->
  WANDB_AVAILABLE w = true
  /\ (is_Some (wandb_run w)
      \/ (Args.init_wandb a = true
          /\ exists r,
               wandb_init_outcome w (wandb_init_kwargs a) = inr (Some r))).
Proof.
  rewrite WandbLogger_of_cases.
  destruct (WANDB_AVAILABLE w); simpl.
  - destruct (wandb_run w) as [r |].
    + split; [intros _; split; eauto | eauto].
    + destruct (Args.init_wandb a).
      * destruct (wandb_init_outcome w (wandb_init_kwargs a))
          as [e | [r |]].
        -- split; [intros (? & ? & [=]) |].
           intros (_ & [[? [=]] | (_ & r & [=])]).
        -- split; [intros _; split; eauto 6 | eauto].
        -- split; [intros (? & ? & [=]) |].
           intros (_ & [[? [=]] | (_ & r & [=])]).
      * split; [intros (? & ? & [=]) |].
        intros (_ & [[? [=]] | ([=] & _)]).
  - split; [intros (? & ? & [=]) | intros ([=] & _)].
Qed.

(** X2. When the constructor raises, it is with [ImportError] and the world
    untouched (the package is missing, and [wandb.init] was not tried), or
    with [RuntimeError] because there is no run (none existed and either
    [init_wandb] is false, or [wandb.init] returned [None]), or with what
    [wandb.init] itself raised. *)
Theorem X2_constructor_errors (a : Args.t) (w : World) (e : Exc) (w1 : World) :
  WandbLogger_of a w = (inl e, w1) ->
  (WANDB_AVAILABLE w = false /\ e = ImportError not_installed /\ w1 = w)
  \/ (WANDB_AVAILABLE w = true /\ wandb_run w = None
      /\ Args.init_wandb a = false
      /\ e = RuntimeError run_not_initialized /\ w1 = w)
  \/ (WANDB_AVAILABLE w = true /\ wandb_run w = None
      /\ Args.init_wandb a = true
      /\ wandb_init_outcome w (wandb_init_kwargs a) = inr None
      /\ e = RuntimeError run_not_initialized
      /\ events w1 = events w ++ [EvWandbInit (wandb_init_kwargs a)])
  \/ (WANDB_AVAILABLE w = true /\ wandb_run w = None
      /\ Args.init_wandb a = true
      /\ wandb_init_outcome w (wandb_init_kwargs a) = inl e
      /\ events w1 = events w ++ [EvWandbInit (wandb_init_kwargs a)]).
Proof.
  rewrite WandbLogger_of_cases.
  destruct (WANDB_AVAILABLE w); simpl.
  - destruct (wandb_run w) as [r |]; [discriminate |].
    destruct (Args.init_wandb a).
    + destruct (wandb_init_outcome w (wandb_init_kwargs a)) as [e' | [r |]].
      * intros [= <- <-]. right. right. right. auto 10.
      * discriminate.
      * intros [= <- <-]. right. right. left. auto 10.
    + intros [= <- <-]. right. left. auto 10.
  - intros [= <- <-]. left. auto.
Qed.

Lemma X2_witness :
  exists e w1,
    WandbLogger_of actor_args world_online = (inl e, w1)
    /\ e = RuntimeError run_not_initialized
    /\ w1 = world_online.
Proof.
  eexists _, _. split; [reflexivity |].
  destruct (X2_constructor_errors actor_args world_online _ _ eq_refl)
    as [(H & _) | [(_ & _ & _ & He & Hw)
                   | [(_ & _ & H & _) | (_ & _ & H & _)]]];
    try discriminate H.
  split; [reflexivity | reflexivity].
Defined.

(** X3. The logger that the constructor returns holds a run, the one that
    [wandb.run] holds once it has returned; it has the label it was given;
    and the constructor has called [wandb.init] at most once, and not at all
    when a run existed or [init_wandb] is false. *)
Theorem X3_constructor_invariant
    (a : Args.t) (w : World) (self : WandbLogger) (w1 : World) :
  WandbLogger_of a w = (inr self, w1) ->
  _label self = Args.label a
  /\ is_Some (_run self)
  /\ _run self = wandb_run w1
  /\ (events w1 = events w
      \/ (events w1 = events w ++ [EvWandbInit (wandb_init_kwargs a)]
          /\ wandb_run w = None /\ Args.init_wandb a = true))
  /\ (is_Some (wandb_run w) -> w1 = w /\ _run self = wandb_run w)
  /\ (Args.init_wandb a = false -> w1 = w).
Proof.
  rewrite WandbLogger_of_cases.
  destruct (WANDB_AVAILABLE w); simpl; [| discriminate].
  destruct (wandb_run w) as [r |] eqn:Hrun.
  - intros [= <- <-]. simpl. rewrite Hrun. eauto 10.
  - destruct (Args.init_wandb a); [| discriminate].
    destruct (wandb_init_outcome w (wandb_init_kwargs a)) as [e | [r |]];
      try discriminate.
    intros [= <- <-]. simpl.
    split; [reflexivity |]. split; [eauto |]. split; [reflexivity |].
    split; [right; auto |].
    split; [intros [? [=]] | discriminate].
Qed.

Lemma X3_witness :
  exists self w1,
    WandbLogger_of learner_args world_online = (inr self, w1)
    /\ _label self = "learner"
    /\ _run self = Some (RunHandle 1)
    /\ wandb_run w1 = Some (RunHandle 1).
Proof.
  eexists _, _. split; [reflexivity |].
  destruct (X3_constructor_invariant learner_args world_online _ _ eq_refl)
    as (Hlabel & _ & Hrun & _).
  split; [exact Hlabel |]. split; [reflexivity |]. reflexivity.
Defined.

(** ** The factory and the wandb SDK *)

Lemma runs_of_app l1 l2 : runs_of (l1 ++ l2) = runs_of l1 ++ runs_of l2.
Proof.
  induction l1 as [| [? ? | ? ? ? | wl] l1 IH]; simpl; auto.
  rewrite IH. reflexivity.
Qed.

Lemma runs_of_base_loggers a : runs_of (base_loggers a) = [].
Proof.
  destruct (base_loggers_shape a) as [p ->].
  destruct (Args.save_data a); reflexivity.
Qed.

(** The effects of lines 133-156. *)
Lemma add_wandb_logger_effects (a : Args.t) (w : World) :
  exists loggers w' prints,
    add_wandb_logger (base_loggers a) a w = (inr loggers, w')
    /\ events w' =
       events w
       ++ (if reaches_wandb_init a w
           then [EvWandbInit (wandb_init_kwargs a)] else [])
       ++ prints
    /\ forallb is_print prints = true
    /\ length prints = (if Args.use_wandb a then 1 else 0)
    /\ (reaches_wandb_init a w = false -> wandb_run w' = wandb_run w).
Proof.
  destruct (add_wandb_logger_branch (base_loggers a) a w)
    as (loggers & w' & Hmake & Hbranch).
  unfold reaches_wandb_init.
  inversion Hbranch as [Huse | Huse Hmod | wl w1 Huse Hmod Hinit
                        | e w1 Huse Hmod Hinit]; subst; rewrite Huse.
  - eexists _, _, []. split; [exact Hmake |]. simpl. rewrite app_nil_r.
    auto 10.
  - eexists _, _, [_]. split; [exact Hmake |]. rewrite Hmod. simpl. auto 10.
  - eexists _, _, [_]. split; [exact Hmake |]. rewrite Hmod. simpl.
    rewrite WandbLogger_of_cases in Hinit.
    destruct (WANDB_AVAILABLE w) eqn:Hav; simpl in *; [| discriminate].
    destruct (wandb_run w) as [r |] eqn:Hrun; simpl.
    + injection Hinit as <- <-. rewrite andb_false_r. simpl.
      auto 10.
    + destruct (Args.init_wandb a); [| discriminate].
      destruct (wandb_init_outcome w (wandb_init_kwargs a))
        as [e | [r |]]; try discriminate.
      injection Hinit as <- <-. simpl. rewrite <- app_assoc.
      repeat split; auto. discriminate.
  - eexists _, _, [_]. split; [exact Hmake |]. rewrite Hmod. simpl.
    rewrite WandbLogger_of_cases in Hinit.
    destruct (WANDB_AVAILABLE w) eqn:Hav; simpl in *.
    + destruct (wandb_run w) as [r |] eqn:Hrun; simpl; [discriminate |].
      destruct (Args.init_wandb a).
      * destruct (wandb_init_outcome w (wandb_init_kwargs a))
          as [e' | [r |]]; try discriminate;
          injection Hinit as <- <-; simpl; rewrite <- app_assoc;
          repeat split; auto; discriminate.
      * injection Hinit as <- <-. simpl. auto 10.
    + injection Hinit as <- <-. simpl. auto 10.
Qed.

(** X4. What a call of [make_wandb_logger] that returns has added to the
    world: the call of [wandb.init], if [reaches_wandb_init], and then the
    lines it printed, one when [use_wandb] is true, none otherwise. So it
    has called [wandb.init] at most once, and when it has not, [wandb.run]
    is what it was. *)
Theorem X4_factory_effects
    (a : Args.t) (w : World) (lg : Logger) (w' : World) :
  make_wandb_logger a w = (inr lg, w') ->
  exists prints,
    events w' =
    events w
    ++ (if reaches_wandb_init a w
        then [EvWandbInit (wandb_init_kwargs a)] else [])
    ++ prints
    /\ forallb is_print prints = true
    /\ length prints = (if Args.use_wandb a then 1 else 0)
    /\ (reaches_wandb_init a w = false -> wandb_run w' = wandb_run w).
Proof.
  intros Hmake.
  destruct (add_wandb_logger_effects a w)
    as (loggers & w1 & prints & Hadd & Hev & Hprints & Hlen & Hrun).
  unfold make_wandb_logger, bind in Hmake. rewrite Hadd in Hmake.
  rewrite wrap_chain in Hmake. injection Hmake as _ <-.
  exists prints. auto.
Qed.

Lemma X4_witness :
  exists lg w',
    make_wandb_logger learner_args world_online = (inr lg, w')
    /\ exists prints,
         events w' =
         EvWandbInit (wandb_init_kwargs learner_args) :: prints
         /\ forallb is_print prints = true
         /\ length prints = 1.
Proof.
  eexists _, _. split; [reflexivity |].
  destruct (X4_factory_effects learner_args world_online _ _ eq_refl)
    as (prints & Hev & Hprints & Hlen & _).
  exists prints. auto.
Defined.

(** X5. Loggers share the run. Once a call of [make_wandb_logger] has
    returned a pipeline with a wandb sink, a call with [use_wandb] true
    (whatever its [init_wandb]) in any later world where [wandb.run] still
    holds that run (it has not been finished) and the module globals are as
    they were returns a pipeline whose wandb sink holds the same run, and
    does not call [wandb.init] again: all it adds to the world is the line
    it prints. *)
Theorem X5_loggers_share_the_run
    (a1 a2 : Args.t) (w : World) (lg1 : Logger) (w1 w2 : World) :
  make_wandb_logger a1 w = (inr lg1, w1) ->
  runs_of (sinks lg1) <> [] ->
  Args.use_wandb a2 = true ->
  wandb_run w2 = wandb_run w1 ->
  WANDB_AVAILABLE w2 = WANDB_AVAILABLE w1 ->
  WANDB_LOGGER_AVAILABLE w2 = WANDB_LOGGER_AVAILABLE w1 ->
  exists lg2 w3 run,
    make_wandb_logger a2 w2 = (inr lg2, w3)
    /\ runs_of (sinks lg1) = [Some run]
    /\ runs_of (sinks lg2) = [Some run]
    /\ events w3 =
       events w2 ++ [EvPrint ("Wandb logging enabled for " +:+ Args.label a2)]
    /\ wandb_run w3 = Some run.
Proof.
  intros Hmake1 Hsink Huse2 Hsame Hsame_av Hsame_mod.
  destruct (make_wandb_logger_chain a1 w) as (l1 & w1' & Hbranch & Hmake1').
  rewrite Hmake1 in Hmake1'. injection Hmake1' as -> <-.
  rewrite sinks_chain in *.
  assert (exists run,
             runs_of l1 = [Some run] /\ wandb_run w1 = Some run
             /\ WANDB_AVAILABLE w1 = true
             /\ WANDB_LOGGER_AVAILABLE w1 = true)
    as (run & Hruns & Hrun & Hav & Hmod).
  { inversion Hbranch as [Huse | Huse Hmod | wl w0 Huse Hmod Hinit
                          | e w0 Huse Hmod Hinit]; subst;
      try (rewrite runs_of_base_loggers in Hsink; congruence).
    rewrite runs_of_app, runs_of_base_loggers. simpl.
    rewrite WandbLogger_of_cases in Hinit.
    destruct (WANDB_AVAILABLE w) eqn:Hav; simpl in Hinit; [| discriminate].
    destruct (wandb_run w) as [r |] eqn:Hrun.
    - injection Hinit as <- <-. exists r. simpl. auto.
    - destruct (Args.init_wandb a1); [| discriminate].
      destruct (wandb_init_outcome w (wandb_init_kwargs a1))
        as [e | [r |]]; try discriminate.
      injection Hinit as <- <-. exists r. simpl. auto. }
  rewrite <- Hsame in Hrun. rewrite <- Hsame_av in Hav.
  rewrite <- Hsame_mod in Hmod.
  destruct (make_wandb_logger_chain a2 w2) as (l2 & w3 & Hbranch2 & Hmake2).
  assert (Hctor : WandbLogger_of a2 w2 =
                  (inr {| _label := Args.label a2; _time := clock w2;
                          _run := Some run |}, w2)).
  { rewrite WandbLogger_of_cases, Hav, Hrun. reflexivity. }
  eexists _, w3, run. split; [exact Hmake2 |].
  rewrite sinks_chain. split; [exact Hruns |].
  inversion Hbranch2 as [Huse | Huse Hmod' | wl w0 Huse Hmod' Hinit
                         | e w0 Huse Hmod' Hinit]; subst; try congruence.
  rewrite Hctor in Hinit. injection Hinit as <- <-.
  rewrite runs_of_app, runs_of_base_loggers. simpl. auto.
Qed.

(** The actor's logger is made after the learner has logged a record,
    eleven seconds later. *)
Lemma X5_witness :
  exists lg1 w1,
    make_wandb_logger learner_args world_online = (inr lg1, w1)
    /\ exists lg2 w3,
         make_wandb_logger actor_args
           (write_and_drain int_of_number serialize_id lg1
              {[ "learner_steps" := VInt 100 ]} (set_clock 11 w1)).2 =
         (inr lg2, w3)
         /\ runs_of (sinks lg1) = [Some (RunHandle 1)]
         /\ runs_of (sinks lg2) = [Some (RunHandle 1)]
         /\ List.map is_print (events w3) =
            [false; true; false; false; true].
Proof.
  eexists _, _. split; [reflexivity |].
  match goal with
  | |- exists lg2 w3,
         make_wandb_logger _ (write_and_drain _ _ ?lg1 _ (set_clock _ ?w1)).2
         = _ /\ _ =>
      destruct (X5_loggers_share_the_run learner_args actor_args world_online
                  lg1 w1
                  (write_and_drain int_of_number serialize_id lg1
                     {[ "learner_steps" := VInt 100 ]} (set_clock 11 w1)).2
                  eq_refl ltac:(discriminate) eq_refl eq_refl eq_refl eq_refl)
        as (lg2 & w3 & run & Hmake & H1 & H2 & Hev & _)
  end.
  exists lg2, w3. split; [exact Hmake |].
  assert (run = RunHandle 1) as -> by (injection H1 as ->; reflexivity).
  split; [reflexivity |]. split; [exact H2 |].
  rewrite Hev. reflexivity.
Defined.

(** X6. With [use_wandb] false, [make_wandb_logger] is
    [make_default_logger]: the same pipeline, the same world. *)
Theorem X6_tracking_off_is_default (a : Args.t) (w : World) :
  Args.use_wandb a = false ->
  make_wandb_logger a w = make_default_logger a w.
Proof.
  intros Huse.
  unfold make_wandb_logger, make_default_logger, add_wandb_logger, bind.
  rewrite Huse. reflexivity.
Qed.

Lemma X6_witness :
  make_wandb_logger (Args.defaults "evaluator") world_no_package =
  make_default_logger (Args.defaults "evaluator") world_no_package.
Proof.
  exact (X6_tracking_off_is_default (Args.defaults "evaluator")
           world_no_package eq_refl).
Defined.

(** X7. [steps_key] is ignored ([del steps_key]): whatever it is, the two
    factories return the same pipeline and leave the same world. *)
Theorem X7_steps_key_ignored (steps_key : string) (a : Args.t) (w : World) :
  make_wandb_logger (with_steps_key steps_key a) w = make_wandb_logger a w
  /\ make_default_logger (with_steps_key steps_key a) w =
     make_default_logger a w.
Proof. destruct a. split; reflexivity. Qed.

(** ** The keys of the wandb sink *)

Lemma append_cons (c : Ascii.ascii) (s t : string) :
  String c s +:+ t = String c (s +:+ t).
Proof. reflexivity. Qed.

Lemma append_nil (t : string) : "" +:+ t = t.
Proof. reflexivity. Qed.

Lemma prefix_key_split (l1 l2 k1 k2 : string) :
  occurs "/"%char l1 = false -> occurs "/"%char l2 = false ->
  prefix_key l1 k1 = prefix_key l2 k2 -> l1 = l2 /\ k1 = k2.
Proof.
  unfold prefix_key. revert l2.
  induction l1 as [| c1 l1 IH]; intros [| c2 l2] H1 H2 Heq.
  - rewrite !append_nil, !append_cons, !append_nil in Heq.
    injection Heq as ->. auto.
  - rewrite append_nil, !append_cons, append_nil in Heq.
    injection Heq as <- _. simpl in H2. discriminate.
  - rewrite append_nil, !append_cons, append_nil in Heq.
    injection Heq as -> _. simpl in H1. discriminate.
  - rewrite !append_cons in Heq. injection Heq as -> Heq.
    simpl in H1, H2. apply orb_false_iff in H1 as [_ H1].
    apply orb_false_iff in H2 as [_ H2].
    destruct (IH l2 H1 H2 Heq) as [-> ->]. auto.
Qed.

Lemma size_prefixed (label : string) (data : dict) :
  size (prefixed label data) = size data.
Proof.
  unfold prefixed.
  induction data as [| key v data Hkey IH] using map_ind.
  - rewrite kmap_empty by apply _. reflexivity.
  - rewrite kmap_insert by apply _.
    rewrite !map_size_insert_None; [congruence | assumption |].
    rewrite lookup_kmap by apply _. assumption.
Qed.

(** X8. Within one logger no two keys of a record are logged under the
    same name: prefixing is injective, so the dictionary that is logged has
    as many entries as the record, and is empty only for the empty
    record. *)
Theorem X8_prefixing_keeps_entries (label : string) (data : dict) :
  (forall key1 key2,
     prefix_key label key1 = prefix_key label key2 -> key1 = key2)
  /\ size (prefixed label data) = size data
  /\ (prefixed label data = ∅ <-> data = ∅).
Proof.
  split; [| split].
  - intros key1 key2. apply (inj (prefix_key label)).
  - apply size_prefixed.
  - unfold prefixed. apply kmap_empty_iff, _.
Qed.

(** X9. Two loggers whose labels differ and hold no [/] never log under the
    same name, whatever their records: the prefix keeps their keys apart. *)
Theorem X9_labels_keep_loggers_apart
    (label1 label2 : string) (data1 data2 : dict) (logged : string) :
  occurs "/"%char label1 = false -> occurs "/"%char label2 = false ->
  label1 <> label2 ->
  is_Some (prefixed label1 data1 !! logged) ->
  prefixed label2 data2 !! logged = None.
Proof.
  intros H1 H2 Hne Hsome.
  apply lookup_kmap_is_Some in Hsome as (key1 & -> & _); [| apply _].
  apply lookup_kmap_None; [apply _ |].
  intros key2 Heq.
  apply prefix_key_split in Heq as [-> _]; [congruence | assumption ..].
Qed.

Lemma X9_witness :
  prefixed "actor" {[ "steps" := VInt 2 ]} !! "learner/steps" = None.
Proof.
  apply (X9_labels_keep_loggers_apart "learner" "actor"
           {[ "steps" := VInt 1 ]} {[ "steps" := VInt 2 ]} "learner/steps"
           eq_refl eq_refl).
  - discriminate.
  - exists (VInt 1). reflexivity.
Defined.

(** Labels that hold a [/] can collide. *)
Example labels_with_slash_collide :
  prefix_key "eval" "env/steps" = prefix_key "eval/env" "steps".
Proof. reflexivity. Qed.

Lemma get_delete_None (data : dict) (key k : string) :
  data !! key = Some VNone -> get (delete key data) k = get data k.
Proof.
  intros H. unfold get.
  destruct (decide (key = k)) as [<- | Hne].
  - rewrite lookup_delete_eq, H. reflexivity.
  - rewrite lookup_delete_ne by assumption. reflexivity.
Qed.

(** X10. For the step, a key that holds [None] is as good as absent:
    removing such an entry from a record changes neither the step that
    [write] extracts nor whether it passes one. *)
Theorem X10_None_entry_as_absent (data : dict) (key : string) :
  data !! key = Some VNone ->
  extract_step (delete key data) = extract_step data
  /\ first_present (delete key data) = first_present data.
Proof.
  intros H. unfold extract_step, first_present. simpl.
  rewrite !(get_delete_None data key) by exact H. auto.
Qed.

Lemma X10_witness :
  extract_step
    (delete "steps" {[ "steps" := VNone; "actor_steps" := VInt 9 ]}) =
  extract_step {[ "steps" := VNone; "actor_steps" := VInt 9 ]}
  /\ first_present
       (delete "steps" {[ "steps" := VNone; "actor_steps" := VInt 9 ]}) =
     first_present {[ "steps" := VNone; "actor_steps" := VInt 9 ]}.
Proof.
  exact (X10_None_entry_as_absent
           {[ "steps" := VNone; "actor_steps" := VInt 9 ]} "steps" eq_refl).
Defined.

(** ** The agent and its loggers *)

Lemma init_returns (a : Init.t) (layout : Layout.kwargs) :
  DistributedContrastive_init a = inr layout ->
  (0 < Config.max_episode_steps (Init.config a))%Z
  /\ (0 < Config.obs_dim (Init.config a))%Z
  /\ Layout.builder layout =
     {| Builder.config := Init.config a;
        Builder.logger_fn :=
          learner_logger_fn (Init.config a) (Init.seed a)
            (Init.log_to_bigtable a) (Init.log_every a)
            (wandb_config_dict_of (Init.config a) (Init.seed a)
               (Init.num_actors a)) |}
  /\ Layout.observers layout = success_and_distance (Init.config a)
  /\ Layout.evaluator_factories layout =
     match Init.evaluator_factories a with
     | None => if Config.local (Init.config a) then []
               else [default_evaluator a]
     | Some given => given
     end
  /\ Layout.actor_logger_fn layout =
     {| ActorLogger.log_to_bigtable := Init.log_to_bigtable a;
        ActorLogger.log_every := Init.log_every a;
        ActorLogger.save_dir := save_dir_of (Init.config a) (Init.seed a);
        ActorLogger.add_uid := Config.add_uid (Init.config a);
        ActorLogger.use_wandb := Config.use_wandb (Init.config a);
        ActorLogger.wandb_project := Config.wandb_project (Init.config a);
        ActorLogger.wandb_entity := Config.wandb_entity (Init.config a);
        ActorLogger.wandb_group := Config.wandb_group (Init.config a);
        ActorLogger.wandb_mode := Config.wandb_mode (Init.config a) |}
  /\ Layout.checkpointing_config layout =
     {| Checkpointing.save_dir := save_dir_of (Init.config a) (Init.seed a);
        Checkpointing.add_uid := Config.add_uid (Init.config a) |}.
Proof.
  unfold DistributedContrastive_init.
  destruct (0 <? Config.max_episode_steps (Init.config a))%Z eqn:H1;
    [| discriminate].
  destruct (0 <? Config.obs_dim (Init.config a))%Z eqn:H2; [| discriminate].
  simpl. intros [= <-]. simpl.
  apply Z.ltb_lt in H1, H2.
  destruct (Init.evaluator_factories a); auto 10.
Qed.

(** X11. The learner, the actors, the default evaluator and the
    checkpoints of one agent agree: they are given the same [save_dir] and
    [add_uid], the three loggers the same wandb project, entity, group, mode
    and [use_wandb], the learner and the actors the same logging interval,
    and all of them [log_to_bigtable] where they take it. *)
Theorem X11_components_agree (a : Init.t) (layout : Layout.kwargs) :
  DistributedContrastive_init a = inr layout ->
  let learner := Builder.logger_fn (Layout.builder layout) in
  let actor := Layout.actor_logger_fn layout in
  let checkpoints := Layout.checkpointing_config layout in
  Args.save_dir learner = ActorLogger.save_dir actor
  /\ Checkpointing.save_dir checkpoints = ActorLogger.save_dir actor
  /\ Args.add_uid learner = ActorLogger.add_uid actor
  /\ Checkpointing.add_uid checkpoints = ActorLogger.add_uid actor
  /\ Args.use_wandb learner = ActorLogger.use_wandb actor
  /\ Args.wandb_project learner = ActorLogger.wandb_project actor
  /\ Args.wandb_entity learner = ActorLogger.wandb_entity actor
  /\ Args.wandb_group learner = ActorLogger.wandb_group actor
  /\ Args.wandb_mode learner = ActorLogger.wandb_mode actor
  /\ Args.time_delta learner = ActorLogger.log_every actor
  /\ Args.save_data learner = ActorLogger.log_to_bigtable actor
  /\ Layout.log_to_bigtable layout = ActorLogger.log_to_bigtable actor
  /\ (Init.evaluator_factories a = None ->
      forall kw,
        In (default_evaluator_factory kw) (Layout.evaluator_factories layout) ->
        Evaluator.save_dir kw = ActorLogger.save_dir actor
        /\ Evaluator.add_uid kw = ActorLogger.add_uid actor
        /\ Evaluator.use_wandb kw = ActorLogger.use_wandb actor
        /\ Evaluator.wandb_project kw = ActorLogger.wandb_project actor
        /\ Evaluator.wandb_entity kw = ActorLogger.wandb_entity actor
        /\ Evaluator.wandb_group kw = ActorLogger.wandb_group actor
        /\ Evaluator.wandb_mode kw = ActorLogger.wandb_mode actor
        /\ Evaluator.log_to_bigtable kw = ActorLogger.log_to_bigtable actor
        /\ Evaluator.observers kw = Layout.observers layout).
Proof.
  intros Hinit.
  assert (Hbig : Layout.log_to_bigtable layout = Init.log_to_bigtable a).
  { revert Hinit. unfold DistributedContrastive_init.
    destruct (negb _); [discriminate |].
    destruct (negb _); [discriminate |]. intros [= <-]. reflexivity. }
  destruct (init_returns a layout Hinit)
    as (_ & _ & Hb & Hobs & Hev & Hactor & Hck).
  simpl. rewrite Hb, Hactor, Hck, Hbig, Hobs. simpl.
  repeat (split; [reflexivity |]).
  intros Hnone kw Hin. rewrite Hev, Hnone in Hin.
  destruct (Config.local (Init.config a)); simpl in Hin; [contradiction |].
  destruct Hin as [[= <-] | []]. simpl. auto 10.
Qed.

Lemma X11_witness :
  exists layout,
    DistributedContrastive_init (init_of config0) = inr layout
    /\ Args.save_dir (Builder.logger_fn (Layout.builder layout)) =
       "/tmp/contrastive_nce_sawyer_window_0"
    /\ ActorLogger.save_dir (Layout.actor_logger_fn layout) =
       "/tmp/contrastive_nce_sawyer_window_0"
    /\ Checkpointing.save_dir (Layout.checkpointing_config layout) =
       "/tmp/contrastive_nce_sawyer_window_0".
Proof.
  eexists. split; [reflexivity |].
  destruct (X11_components_agree (init_of config0) _ eq_refl)
    as (H1 & H2 & _).
  split; [| split].
  - rewrite H1. reflexivity.
  - reflexivity.
  - rewrite H2. reflexivity.
Defined.

(** X12. Every [DistanceObserver] that a constructed agent hands on, to the
    actors or to its default evaluator, is built for a positive observation
    dimension: the assertion on [config.obs_dim] comes first. *)
Theorem X12_observers_positive (a : Init.t) (layout : Layout.kwargs) :
  DistributedContrastive_init a = inr layout ->
  positive_obs_dim (Layout.observers layout)
  /\ (Init.evaluator_factories a = None ->
      forall kw,
        In (default_evaluator_factory kw) (Layout.evaluator_factories layout) ->
        positive_obs_dim (Evaluator.observers kw)).
Proof.
  intros Hinit.
  destruct (init_returns a layout Hinit)
    as (_ & Hdim & _ & Hobs & Hev & _).
  assert (Hpos : positive_obs_dim (success_and_distance (Init.config a))).
  { intros d s e [[=] | [[= <- _ _] | []]]. exact Hdim. }
  split.
  - rewrite Hobs. exact Hpos.
  - intros Hnone kw Hin. rewrite Hev, Hnone in Hin.
    destruct (Config.local (Init.config a)); simpl in Hin; [contradiction |].
    destruct Hin as [[= <-] | []]. exact Hpos.
Qed.

Lemma X12_witness :
  exists layout,
    DistributedContrastive_init (init_of config0) = inr layout
    /\ positive_obs_dim (Layout.observers layout).
Proof.
  eexists. split; [reflexivity |].
  exact (proj1 (X12_observers_positive (init_of config0) _ eq_refl)).
Defined.

Lemma wandb_config_dict_of_built (config : Config.t) (seed num_actors : Z) :
  Config.use_wandb config = true ->
  exists metadata : dict,
    wandb_config_dict_of config seed num_actors = Some metadata
    /\ dom metadata = list_to_set wandb_config_keys
    /\ metadata !! "seed" = Some (VInt seed)
    /\ metadata !! "num_actors" = Some (VInt num_actors).
Proof.
  intros Huse. unfold wandb_config_dict_of. rewrite Huse.
  eexists. split; [reflexivity |].
  split; [rewrite dom_list_to_map_L; reflexivity |].
  split; reflexivity.
Qed.

(** X13. What the learner's [logger_fn] of a constructed agent does when
    tracking is on, the SDK is there and no run exists yet: it calls
    [wandb.init] once, with the project, entity, group, name, tags, notes
    and mode of the configuration and with the metadata dictionary as
    [config]; it prints that wandb logging is enabled; and it returns an
    asynchronous pipeline over the terminal logger, the CSV logger when
    [log_to_bigtable], and a wandb sink labelled [learner] that holds the
    new run. *)
Theorem X13_learner_logger_initializes_wandb
    (a : Init.t) (layout : Layout.kwargs) (w : World) (run : Run) :
  let config := Init.config a in
  let logger_fn := Builder.logger_fn (Layout.builder layout) in
  DistributedContrastive_init a = inr layout ->
  Config.use_wandb config = true ->
  WANDB_LOGGER_AVAILABLE w = true ->
  WANDB_AVAILABLE w = true ->
  wandb_run w = None ->
  wandb_init_outcome w (wandb_init_kwargs logger_fn) = inr (Some run) ->
  exists lg w' metadata,
    make_wandb_logger logger_fn w = (inr lg, w')
    /\ events w' =
       events w ++
       [ EvWandbInit
           {| ia_project := Config.wandb_project config;
              ia_entity := Config.wandb_entity config;
              ia_config := Some metadata;
              ia_group := Config.wandb_group config;
              ia_name := Config.wandb_name config;
              ia_tags := Config.wandb_tags config;
              ia_notes := Config.wandb_notes config;
              ia_mode := Config.wandb_mode config;
              ia_reinit := false |};
         EvPrint "Wandb logging enabled for learner" ]
    /\ dom metadata = list_to_set wandb_config_keys
    /\ metadata !! "seed" = Some (VInt (Init.seed a))
    /\ metadata !! "num_actors" = Some (VInt (Init.num_actors a))
    /\ wandb_run w' = Some run
    /\ sinks lg =
       TerminalLogger "learner" logging_info ::
       (if Init.log_to_bigtable a
        then [CSVLogger "learner" (save_dir_of config (Init.seed a))
                (Config.add_uid config)]
        else [])
       ++ [WandbSink {| _label := "learner"; _time := clock w;
                        _run := Some run |}]
    /\ has_async lg = true.
Proof.
  intros config logger_fn Hinit Huse Hmod Hav Hrun Hout.
  destruct (init_returns a layout Hinit) as (_ & _ & Hb & _).
  destruct (wandb_config_dict_of_built config (Init.seed a)
              (Init.num_actors a) Huse)
    as (metadata & Hmeta & Hdom & Hseed & Hactors).
  subst logger_fn config. rewrite Hb in *. rewrite Hmeta in *.
  cbn [Builder.logger_fn] in *.
  set (args := learner_logger_fn (Init.config a) (Init.seed a)
                 (Init.log_to_bigtable a) (Init.log_every a)
                 (Some metadata)) in *.
  assert (Hctor :
    WandbLogger_of args w =
    (inr {| _label := "learner"; _time := clock w; _run := Some run |},
     set_wandb_run (Some run)
       (emit (EvWandbInit (wandb_init_kwargs args)) w))).
  { rewrite WandbLogger_of_cases, Hav, Hrun. simpl. rewrite Hout.
    reflexivity. }
  destruct (make_wandb_logger_chain args w)
    as (loggers & w' & Hbranch & Hmake).
  inversion Hbranch as [Huse' | Huse' Hmod' | wl w0 Huse' Hmod' Hinit'
                        | e w0 Huse' Hmod' Hinit']; subst loggers w';
    try (simpl in Huse'; congruence); try congruence.
  rewrite Hctor in Hinit'. injection Hinit' as <- <-.
  eexists _, _, metadata. split; [exact Hmake |].
  rewrite sinks_chain, has_async_chain.
  split; [simpl; rewrite <- app_assoc; reflexivity |].
  split; [exact Hdom |]. split; [exact Hseed |]. split; [exact Hactors |].
  split; [reflexivity |]. split; [| reflexivity].
  unfold base_loggers. simpl.
  destruct (Init.log_to_bigtable a); reflexivity.
Qed.

Lemma X13_witness :
  exists layout lg w',
    DistributedContrastive_init (init_of config0) = inr layout
    /\ make_wandb_logger (Builder.logger_fn (Layout.builder layout))
         world_online = (inr lg, w')
    /\ List.map is_print (events w') = [false; true]
    /\ wandb_run w' = Some (RunHandle 1)
    /\ has_async lg = true.
Proof.
  destruct (X13_learner_logger_initializes_wandb (init_of config0) _
              world_online (RunHandle 1) eq_refl eq_refl eq_refl eq_refl
              eq_refl eq_refl)
    as (lg & w' & metadata & Hmake & Hev & _ & _ & _ & Hrun & _ & Hasync).
  eexists _, lg, w'. split; [reflexivity |]. split; [exact Hmake |].
  split; [rewrite Hev; reflexivity |]. split; assumption.
Defined.

(** ** The directory of a run *)

Lemma parse_int_str (z : Z) : parse_int (Py.str z) = Some z.
Proof.
  unfold parse_int, Py.str. rewrite NilZero.isi.
  - simpl. f_equal. apply DecimalZ.of_to.
  - destruct z; simpl; try discriminate.
    intros [= H]. exact (DecimalPos.Unsigned.to_uint_nonnil _ H).
  - destruct z; simpl; try discriminate.
    intros [= H]. exact (DecimalPos.Unsigned.to_uint_nonnil _ H).
Qed.

(** X14. Runs of one configuration with different seeds get different
    directories: [save_dir] ends in [str(seed)], from which the seed can be
    read back. *)
Theorem X14_save_dir_tells_seeds_apart (config : Config.t) (seed1 seed2 : Z) :
  seed1 <> seed2 -> save_dir_of config seed1 <> save_dir_of config seed2.
Proof.
  intros Hne Heq. apply Hne. unfold save_dir_of in Heq.
  do 5 apply (inj (String.app _)) in Heq.
  assert (H : parse_int (Py.str seed1) = parse_int (Py.str seed2))
    by (rewrite Heq; reflexivity).
  rewrite !parse_int_str in H. congruence.
Qed.

Lemma X14_witness :
  (0 <> 1)%Z /\ save_dir_of config0 0 <> save_dir_of config0 1.
Proof.
  assert (H : (0 <> 1)%Z) by discriminate.
  exact (conj H (X14_save_dir_tells_seeds_apart config0 0 1 H)).
Defined.

(** ** The end of a run *)

(** X15. [finish_wandb] does nothing when the package is missing or no run
    exists, so calling it twice is calling it once. Once it has ended the
    run, a logger that is not to initialize wandb ([init_wandb] false) can
    no longer be given a wandb sink: the constructor raises [RuntimeError],
    and [make_wandb_logger] prints the warning and returns the pipeline
    without it. *)
Theorem X15_after_finish_wandb (a : Args.t) (w : World) :
  (WANDB_AVAILABLE w = false \/ wandb_run w = None ->
   finish_wandb w = (inr tt, w))
  /\ finish_wandb (finish_wandb w).2 = (inr tt, (finish_wandb w).2)
  /\ (WANDB_AVAILABLE w = true ->
      wandb_run (finish_wandb w).2 = None
      /\ events (finish_wandb w).2 = events w
      /\ (Args.use_wandb a = true -> WANDB_LOGGER_AVAILABLE w = true ->
          Args.init_wandb a = false ->
          exists lg w2,
            make_wandb_logger a (finish_wandb w).2 = (inr lg, w2)
            /\ runs_of (sinks lg) = []
            /\ events w2 =
               events w ++
               [EvPrint ("Warning: Failed to initialize Wandb logger for "
                         +:+ Args.label a +:+ ": " +:+ run_not_initialized)])).
Proof.
  unfold finish_wandb, bind, read, wandb_finish, ret.
  destruct (WANDB_AVAILABLE w) eqn:Hav; simpl.
  - destruct (wandb_run w) as [r |] eqn:Hrun; simpl.
    + split; [intros [[=] | [=]] |]. rewrite Hav. simpl.
      split; [reflexivity |]. intros _.
      split; [reflexivity |]. split; [reflexivity |].
      intros Huse Hmod Hinit.
      set (w1 := set_wandb_run None w).
      destruct (make_wandb_logger_chain a w1)
        as (loggers & w2 & Hbranch & Hmake).
      assert (Hctor : WandbLogger_of a w1 =
                      (inl (RuntimeError run_not_initialized), w1)).
      { rewrite WandbLogger_of_cases. subst w1. simpl.
        rewrite Hav, Hinit. reflexivity. }
      eexists _, w2. split; [exact Hmake |]. rewrite sinks_chain.
      inversion Hbranch as [Huse' | Huse' Hmod' | wl w0 Huse' Hmod' Hinit'
                            | e w0 Huse' Hmod' Hinit']; subst;
        try congruence; try (simpl in Hmod'; congruence).
      rewrite Hctor in Hinit'. injection Hinit' as <- <-.
      split; [apply runs_of_base_loggers | reflexivity].
    + rewrite Hav, Hrun. simpl. split; [reflexivity |].
      split; [reflexivity |]. intros _.
      split; [reflexivity |]. split; [reflexivity |].
      intros Huse Hmod Hinit.
      destruct (make_wandb_logger_chain a w)
        as (loggers & w2 & Hbranch & Hmake).
      assert (Hctor : WandbLogger_of a w =
                      (inl (RuntimeError run_not_initialized), w)).
      { rewrite WandbLogger_of_cases, Hav, Hrun, Hinit. reflexivity. }
      eexists _, w2. split; [exact Hmake |]. rewrite sinks_chain.
      inversion Hbranch as [Huse' | Huse' Hmod' | wl w0 Huse' Hmod' Hinit'
                            | e w0 Huse' Hmod' Hinit']; subst;
        try congruence.
      rewrite Hctor in Hinit'. injection Hinit' as <- <-.
      split; [apply runs_of_base_loggers | reflexivity].
  - rewrite Hav. simpl. split; [reflexivity |].
    split; [reflexivity | discriminate].
Qed.

(** The learner's logger was built, the run was finished, and the actor's
    logger gets no wandb sink. *)
Example actor_after_finish :
  exists lg1 w1 lg2 w2,
    make_wandb_logger learner_args world_online = (inr lg1, w1)
    /\ runs_of (sinks lg1) = [Some (RunHandle 1)]
    /\ make_wandb_logger actor_args (finish_wandb w1).2 = (inr lg2, w2)
    /\ runs_of (sinks lg2) = [].
Proof. eexists _, _, _, _. repeat split; reflexivity. Qed.
